(** * onionshare/onion.py: the Tor controller manager

    A shallow embedding of [onionshare/onion.py] (class [Onion]) and the
    properties of its connection strategies, bootstrap monitor, capability
    probe, service lifecycle and teardown.

    Everything outside [onion.py] (the operating system, the Python runtime,
    [stem]'s controller objects, the child process, the clock, the random
    generator) is an oracle of a [World]: a deterministic function of the
    history of calls made so far.  The methods of [Onion] run in a small
    state-and-exception monad whose state is the object [self] and that
    history.

    Conventions. [time.time()] is a reading of the world's clock: a
    binary64 float, in seconds, as in Python, with the subtraction and the
    comparison of IEEE 754 as the Standard Library's [SpecFloat] defines
    them, so that the test [time.time() - start_ts > 45] is the one the
    interpreter performs. The argument of [time.sleep(0.2)] is recorded in
    milliseconds, as [EvSleep 200]. Console output is recorded as [EvPrint] with the
    key given to [strings._] and the arguments of [format]. The two
    [while True] loops take a number of rounds ([fuel]); running out of it
    is the outcome [Fuel], which is neither a result nor an exception. *)

From Stdlib Require Import SpecFloat.
From stdpp Require Import gmap strings list pretty.
From Stdlib Require Import ZArith Ascii String.

Local Open Scope Z_scope.

(** ** Floats

    Python's [float] is IEEE 754 binary64: precision 53, maximal exponent
    1024, rounding to nearest, ties to even. *)

Abbreviation float := spec_float.
(** [float(z)] *)
Definition float_of_Z (z : Z) : float := binary_normalize 53 1024 z 0 false.
(** [x - y], [x / y] and [x < y] *)
Definition float_sub (x y : float) : float := SFsub 53 1024 x y.
Definition float_div (x y : float) : float := SFdiv 53 1024 x y.
Definition float_ltb (x y : float) : bool := SFltb x y.

(** ** Exceptions *)

Inductive exn : Type :=
  (* the exception classes declared in onion.py *)
  | TorErrorAutomatic
  | TorErrorInvalidSetting
  | TorErrorSocketPort (address : string) (port : Z)
  | TorErrorSocketFile (path : string)
  | TorErrorMissingPassword
  | TorErrorUnreadableCookieFile
  | TorErrorAuthError (address : string) (port : Z)
  | TorErrorProtocolError
  | TorTooOld
  | BundledTorNotSupported
  | BundledTorTimeout
  (* stem *)
  | ProtocolError
  | MissingPassword
  | UnreadableCookieFile
  | AuthenticationFailure
  | SocketError
  (* builtins *)
  | OSError
  | IndexError
  | ValueError
  | TypeError
  | AttributeError
  | UnboundLocalError
  | KeyboardInterrupt.

(** The classes named in an [except <class>:] clause.  In stem,
    [MissingPassword] and [UnreadableCookieFile] derive from
    [AuthenticationFailure]. *)
Inductive exn_class : Type :=
  | ClsMissingPassword
  | ClsUnreadableCookieFile
  | ClsAuthenticationFailure
  | ClsProtocolError
  | ClsOSError.

Definition isinstance (e : exn) (k : exn_class) : bool :=
  match k, e with
  | ClsMissingPassword, MissingPassword => true
  | ClsUnreadableCookieFile, UnreadableCookieFile => true
  | ClsAuthenticationFailure, (MissingPassword | UnreadableCookieFile | AuthenticationFailure) => true
  | ClsProtocolError, ProtocolError => true
  | ClsOSError, OSError => true
  | _, _ => false
  end.

(** What a call into the outside world gives back. *)
Inductive result (A : Type) : Type :=
  | Ok (a : A)
  | Raise (e : exn).
Arguments Ok {A} a.
Arguments Raise {A} e.

(** ** Data *)

(** The keys of the [Settings] object that onion.py reads with
    [settings.get]. *)
Record Settings : Type := mkSettings {
  connection_type : string;
  control_port_address : string;
  control_port_port : Z;
  socket_file_path : string;
  auth_type : string;
  auth_password : string;
  socks_address : string;
  socks_port : Z;
}.

(** A reply of the controller: [res.content()] is a list of
    (status code, divider, content) triples. *)
Abbreviation reply := (list (string * string * string)).

(** A console message: the key given to [strings._] and the arguments of
    [format]. *)
Inductive message : Type :=
  | Msg (key : string) (args : list string)
  | Line (text : string).

Inductive event : Type :=
  | EvLoadSettings
  | EvTempDir
  | EvReadFile (path : string)
  | EvWriteFile (path contents : string)
  | EvPopen (argv : list string) (hide_window : bool)
  | EvTime (now : float)
  | EvSleep (millis : Z)
  | EvRandint (lo hi drawn : Z)
  | EvBind (host : string) (port : Z)
  | EvFromPort (address : string) (port : Z)
  | EvFromSocketFile (path : string)
  | EvAuthenticate (password : option string)
  | EvGetInfo (key : string) (answer : result string)
  | EvGetVersion
  | EvCreate (ports : gmap Z Z) (basic_auth : option (gmap string (option string)))
             (await_publication : bool)
  | EvRemove (service_id : string)
  | EvTerminate
  | EvPoll
  | EvKill
  | EvPrint (m : message)
  | EvCallback (status : string).

Abbreviation history := (list event).

(** A [subprocess.Popen] object: what its methods do, given the history. *)
Record Popen : Type := mkPopen {
  terminate : history -> option exn;
  poll : history -> result (option Z);
  kill : history -> option exn;
}.

(** A [stem.control.Controller] object. *)
Record Controller : Type := mkController {
  authenticate : history -> option string -> option exn;
  get_info : history -> string -> result string;
  get_version : history -> result string;
  has_list_ephemeral_hidden_services : bool;
  create_ephemeral_hidden_service :
    history -> gmap Z Z -> option (gmap string (option string)) -> bool -> result reply;
  remove_ephemeral_hidden_service : history -> string -> option exn;
}.

(** Everything else the module calls: [platform], [sys], [os],
    [tempfile], [subprocess], [time], [random], [socket], [shlex], the
    builtin [int], the modules [helpers] and [settings] of the package, and
    the two constructors of [stem.control.Controller]. *)
Record World : Type := mkWorld {
  platform_system : string;
  onionshare_dev_mode : bool;
  environ_TOR_CONTROL_PORT : option string;
  geteuid : Z;
  expanduser : string -> string;
  path_join : string -> string -> string;
  py_int : string -> option Z;
  shlex_split : string -> option (list string);
  settings_load : history -> result Settings;
  get_tor_paths : string * string * string;
  get_resource_path : string -> string;
  temporary_directory : history -> result string;
  read_file : history -> string -> result string;
  write_file : history -> string -> string -> option exn;
  popen : history -> list string -> result Popen;
  time_time : history -> float;
  randint : history -> Z -> Z -> Z;
  bind : history -> string -> Z -> option exn;
  from_port : history -> string -> Z -> result Controller;
  from_socket_file : history -> string -> result Controller;
}.

(** The object. An attribute that Python has not assigned yet reads as
    [None] (or [false]). *)
Record Onion : Type := mkOnion {
  stealth : bool;
  service_id : option string;
  settings : Settings;
  tor_path : string;
  tor_geo_ip_file_path : string;
  tor_geo_ipv6_file_path : string;
  tor_proc : option Popen;
  c : option Controller;
  tor_data_directory : option string;
  tor_control_port : option Z;
  tor_control_socket : option string;
  tor_cookie_auth_file : string;
  tor_socks_port : option Z;
  tor_torrc : string;
  tor_version : string;
  supports_ephemeral : bool;
  supports_stealth : bool;
  auth_string : option string;
}.

Definition blank_settings : Settings :=
  mkSettings "" "" 0 "" "" "" "" 0.

Definition blank : Onion :=
  mkOnion false None blank_settings "" "" "" None None None None None "" None "" ""
          false false None.

(** ** The monad *)

(** The local variables of [__init__] that are assigned inside [try]
    blocks and read after them. [socket_file_path] is unbound ([None])
    until its first assignment. *)
Record Locals : Type := mkLocals {
  found_tor : bool;
  socket_file_path_ : option string;
}.

Record St : Type := mkSt {
  self : Onion;
  frame : Locals;
  trace : history;
}.

(** [Fuel]: a loop ran out of the iterations it was given. It is not an
    exception and no [except] clause sees it. *)
Inductive outcome (A : Type) : Type :=
  | Val (a : A)
  | Exc (e : exn)
  | Fuel.
Arguments Val {A} a.
Arguments Exc {A} e.
Arguments Fuel {A}.

Definition M (A : Type) : Type := St -> St * outcome A.

Definition ret {A} (a : A) : M A := fun st => (st, Val a).

Definition bind_ {A B} (m : M A) (k : A -> M B) : M B :=
  fun st =>
    match m st with
    | (st', Val a) => k a st'
    | (st', Exc e) => (st', Exc e)
    | (st', Fuel) => (st', Fuel)
    end.

Definition raise {A} (e : exn) : M A := fun st => (st, Exc e).

Definition out_of_fuel {A} : M A := fun st => (st, Fuel).

(** [try: m  except: h e] *)
Definition try_except {A} (m : M A) (h : exn -> M A) : M A :=
  fun st =>
    match m st with
    | (st', Exc e) => h e st'
    | r => r
    end.

(** [try: m  except K1: h1  except K2: h2 ...]: the first clause whose
    class the exception belongs to; none: the exception goes on. *)
Fixpoint dispatch {A} (clauses : list (exn_class * M A)) (e : exn) : M A :=
  match clauses with
  | [] => raise e
  | (k, h) :: rest => if isinstance e k then h else dispatch rest e
  end.

Definition try_except_on {A} (m : M A) (clauses : list (exn_class * M A)) : M A :=
  try_except m (dispatch clauses).

#[global] Instance M_ret : MRet M := @ret.
#[global] Instance M_bind : MBind M := fun A B k m => bind_ m k.

Definition get_self : M Onion := fun st => (st, Val (self st)).
Definition get_trace : M history := fun st => (st, Val (trace st)).
Definition modify (f : Onion -> Onion) : M unit :=
  fun st => (mkSt (f (self st)) (frame st) (trace st), Val tt).
Definition log (e : event) : M unit :=
  fun st => (mkSt (self st) (frame st) (trace st ++ [e]), Val tt).
Definition get_frame : M Locals := fun st => (st, Val (frame st)).
Definition set_found_tor (b : bool) : M unit :=
  fun st => (mkSt (self st) (mkLocals b (socket_file_path_ (frame st))) (trace st), Val tt).
Definition set_socket_file_path (p : string) : M unit :=
  fun st => (mkSt (self st) (mkLocals (found_tor (frame st)) (Some p)) (trace st), Val tt).

Definition of_result {A} (r : result A) : M A :=
  match r with Ok a => ret a | Raise e => raise e end.
Definition of_status (r : option exn) : M unit :=
  match r with None => ret tt | Some e => raise e end.
Definition of_option {A} (e : exn) (o : option A) : M A :=
  match o with Some a => ret a | None => raise e end.

(** A call into the world: the oracle sees the history before the call,
    the call is then recorded, whatever its outcome. *)
Definition call {A} (ev : event) (f : history -> result A) : M A :=
  h ← get_trace; log ev;; of_result (f h).
Definition call_ (ev : event) (f : history -> option exn) : M unit :=
  h ← get_trace; log ev;; of_status (f h).

(** ** Attribute assignment *)

Definition set_stealth v (o : Onion) : Onion :=
  mkOnion v (service_id o) (settings o) (tor_path o) (tor_geo_ip_file_path o)
    (tor_geo_ipv6_file_path o) (tor_proc o) (c o) (tor_data_directory o)
    (tor_control_port o) (tor_control_socket o) (tor_cookie_auth_file o)
    (tor_socks_port o) (tor_torrc o) (tor_version o) (supports_ephemeral o)
    (supports_stealth o) (auth_string o).
Definition set_settings v (o : Onion) : Onion :=
  mkOnion (stealth o) (service_id o) v (tor_path o) (tor_geo_ip_file_path o)
    (tor_geo_ipv6_file_path o) (tor_proc o) (c o) (tor_data_directory o)
    (tor_control_port o) (tor_control_socket o) (tor_cookie_auth_file o)
    (tor_socks_port o) (tor_torrc o) (tor_version o) (supports_ephemeral o)
    (supports_stealth o) (auth_string o).
(** [(self.tor_path, self.tor_geo_ip_file_path, self.tor_geo_ipv6_file_path) = v] *)
Definition set_tor_paths (v : string * string * string) (o : Onion) : Onion :=
  mkOnion (stealth o) (service_id o) (settings o) v.1.1 v.1.2 v.2
    (tor_proc o) (c o) (tor_data_directory o)
    (tor_control_port o) (tor_control_socket o) (tor_cookie_auth_file o)
    (tor_socks_port o) (tor_torrc o) (tor_version o) (supports_ephemeral o)
    (supports_stealth o) (auth_string o).
Definition set_service_id v (o : Onion) : Onion :=
  mkOnion (stealth o) v (settings o) (tor_path o) (tor_geo_ip_file_path o)
    (tor_geo_ipv6_file_path o) (tor_proc o) (c o) (tor_data_directory o)
    (tor_control_port o) (tor_control_socket o) (tor_cookie_auth_file o)
    (tor_socks_port o) (tor_torrc o) (tor_version o) (supports_ephemeral o)
    (supports_stealth o) (auth_string o).
Definition set_tor_proc v (o : Onion) : Onion :=
  mkOnion (stealth o) (service_id o) (settings o) (tor_path o) (tor_geo_ip_file_path o)
    (tor_geo_ipv6_file_path o) v (c o) (tor_data_directory o)
    (tor_control_port o) (tor_control_socket o) (tor_cookie_auth_file o)
    (tor_socks_port o) (tor_torrc o) (tor_version o) (supports_ephemeral o)
    (supports_stealth o) (auth_string o).
Definition set_c v (o : Onion) : Onion :=
  mkOnion (stealth o) (service_id o) (settings o) (tor_path o) (tor_geo_ip_file_path o)
    (tor_geo_ipv6_file_path o) (tor_proc o) v (tor_data_directory o)
    (tor_control_port o) (tor_control_socket o) (tor_cookie_auth_file o)
    (tor_socks_port o) (tor_torrc o) (tor_version o) (supports_ephemeral o)
    (supports_stealth o) (auth_string o).
Definition set_tor_data_directory v (o : Onion) : Onion :=
  mkOnion (stealth o) (service_id o) (settings o) (tor_path o) (tor_geo_ip_file_path o)
    (tor_geo_ipv6_file_path o) (tor_proc o) (c o) v
    (tor_control_port o) (tor_control_socket o) (tor_cookie_auth_file o)
    (tor_socks_port o) (tor_torrc o) (tor_version o) (supports_ephemeral o)
    (supports_stealth o) (auth_string o).
Definition set_tor_control_port v (o : Onion) : Onion :=
  mkOnion (stealth o) (service_id o) (settings o) (tor_path o) (tor_geo_ip_file_path o)
    (tor_geo_ipv6_file_path o) (tor_proc o) (c o) (tor_data_directory o)
    v (tor_control_socket o) (tor_cookie_auth_file o)
    (tor_socks_port o) (tor_torrc o) (tor_version o) (supports_ephemeral o)
    (supports_stealth o) (auth_string o).
Definition set_tor_control_socket v (o : Onion) : Onion :=
  mkOnion (stealth o) (service_id o) (settings o) (tor_path o) (tor_geo_ip_file_path o)
    (tor_geo_ipv6_file_path o) (tor_proc o) (c o) (tor_data_directory o)
    (tor_control_port o) v (tor_cookie_auth_file o)
    (tor_socks_port o) (tor_torrc o) (tor_version o) (supports_ephemeral o)
    (supports_stealth o) (auth_string o).
Definition set_tor_cookie_auth_file v (o : Onion) : Onion :=
  mkOnion (stealth o) (service_id o) (settings o) (tor_path o) (tor_geo_ip_file_path o)
    (tor_geo_ipv6_file_path o) (tor_proc o) (c o) (tor_data_directory o)
    (tor_control_port o) (tor_control_socket o) v
    (tor_socks_port o) (tor_torrc o) (tor_version o) (supports_ephemeral o)
    (supports_stealth o) (auth_string o).
Definition set_tor_socks_port v (o : Onion) : Onion :=
  mkOnion (stealth o) (service_id o) (settings o) (tor_path o) (tor_geo_ip_file_path o)
    (tor_geo_ipv6_file_path o) (tor_proc o) (c o) (tor_data_directory o)
    (tor_control_port o) (tor_control_socket o) (tor_cookie_auth_file o)
    v (tor_torrc o) (tor_version o) (supports_ephemeral o)
    (supports_stealth o) (auth_string o).
Definition set_tor_torrc v (o : Onion) : Onion :=
  mkOnion (stealth o) (service_id o) (settings o) (tor_path o) (tor_geo_ip_file_path o)
    (tor_geo_ipv6_file_path o) (tor_proc o) (c o) (tor_data_directory o)
    (tor_control_port o) (tor_control_socket o) (tor_cookie_auth_file o)
    (tor_socks_port o) v (tor_version o) (supports_ephemeral o)
    (supports_stealth o) (auth_string o).
Definition set_tor_version v (o : Onion) : Onion :=
  mkOnion (stealth o) (service_id o) (settings o) (tor_path o) (tor_geo_ip_file_path o)
    (tor_geo_ipv6_file_path o) (tor_proc o) (c o) (tor_data_directory o)
    (tor_control_port o) (tor_control_socket o) (tor_cookie_auth_file o)
    (tor_socks_port o) (tor_torrc o) v (supports_ephemeral o)
    (supports_stealth o) (auth_string o).
Definition set_supports_ephemeral v (o : Onion) : Onion :=
  mkOnion (stealth o) (service_id o) (settings o) (tor_path o) (tor_geo_ip_file_path o)
    (tor_geo_ipv6_file_path o) (tor_proc o) (c o) (tor_data_directory o)
    (tor_control_port o) (tor_control_socket o) (tor_cookie_auth_file o)
    (tor_socks_port o) (tor_torrc o) (tor_version o) v
    (supports_stealth o) (auth_string o).
Definition set_supports_stealth v (o : Onion) : Onion :=
  mkOnion (stealth o) (service_id o) (settings o) (tor_path o) (tor_geo_ip_file_path o)
    (tor_geo_ipv6_file_path o) (tor_proc o) (c o) (tor_data_directory o)
    (tor_control_port o) (tor_control_socket o) (tor_cookie_auth_file o)
    (tor_socks_port o) (tor_torrc o) (tor_version o) (supports_ephemeral o)
    v (auth_string o).
Definition set_auth_string v (o : Onion) : Onion :=
  mkOnion (stealth o) (service_id o) (settings o) (tor_path o) (tor_geo_ip_file_path o)
    (tor_geo_ipv6_file_path o) (tor_proc o) (c o) (tor_data_directory o)
    (tor_control_port o) (tor_control_socket o) (tor_cookie_auth_file o)
    (tor_socks_port o) (tor_torrc o) (tor_version o) (supports_ephemeral o)
    (supports_stealth o) v.

(** ** Python values *)

(** [if s:] for a value that is [None] or a [str]. *)
Definition truthy (s : option string) : bool :=
  match s with
  | Some (String _ _) => true
  | _ => false
  end.

(** [not r] for a value that is [None] or an [int]
    ([Popen.poll()] gives [None] while the child runs, else its return
    code). *)
Definition py_not (r : option Z) : bool :=
  match r with
  | None => true
  | Some n => n =? 0
  end.

(** [str(v)] for a value that is [None] or an [int] / a [str]. *)
Definition str_Z (v : option Z) : string :=
  match v with Some n => pretty n | None => "None" end.
Definition str_s (v : option string) : string :=
  match v with Some s => s | None => "None" end.

(** [s.split(sep)] for a one-character separator: cut at every
    occurrence. *)
Fixpoint split_on (sep : ascii) (s : string) : list string :=
  match s with
  | EmptyString => [EmptyString]
  | String a rest =>
      if Ascii.eqb a sep then EmptyString :: split_on sep rest
      else match split_on sep rest with
           | piece :: pieces => String a piece :: pieces
           | [] => [String a EmptyString]
           end
  end.

(** [l[i]]: [IndexError] out of range. *)
Definition index {A} (l : list A) (i : nat) : M A :=
  of_option IndexError (l !! i).

(** [s.replace(old, new)] for a non-empty [old]: every non-overlapping
    occurrence, left to right. *)
Fixpoint replace_from (n : nat) (old new s : string) : string :=
  match n with
  | O => s
  | S n' =>
      match s with
      | EmptyString => EmptyString
      | String a rest =>
          if String.prefix old s
          then new +:+ replace_from n' old new
                         (String.substring (String.length old)
                            (String.length s - String.length old)%nat s)
          else String a (replace_from n' old new rest)
      end
  end.

Definition replace (old new s : string) : string :=
  replace_from (String.length s) old new s.

Fixpoint for_each {A} (l : list A) (body : A -> M unit) : M unit :=
  match l with
  | [] => mret tt
  | x :: rest => body x;; for_each rest body
  end.

(** ** The methods of [Onion] *)

Section Onion.

Context (w : World).

(** *** Calls into the world *)

Definition the_controller : M Controller :=
  o ← get_self; of_option AttributeError (c o).
Definition the_process : M Popen :=
  o ← get_self; of_option AttributeError (tor_proc o).

Definition c_authenticate (password : option string) : M unit :=
  ctl ← the_controller;
  call_ (EvAuthenticate password) (fun h => authenticate ctl h password).
Definition c_get_info (key : string) : M string :=
  ctl ← the_controller;
  h ← get_trace;
  log (EvGetInfo key (get_info ctl h key));;
  of_result (get_info ctl h key).
Definition c_get_version : M string :=
  ctl ← the_controller;
  call EvGetVersion (get_version ctl).
Definition c_create_ephemeral_hidden_service (ports : gmap Z Z)
    (basic_auth : option (gmap string (option string))) (await_publication : bool)
    : M reply :=
  ctl ← the_controller;
  call (EvCreate ports basic_auth await_publication)
       (fun h => create_ephemeral_hidden_service ctl h ports basic_auth await_publication).
Definition c_remove_ephemeral_hidden_service (sid : string) : M unit :=
  ctl ← the_controller;
  call_ (EvRemove sid) (fun h => remove_ephemeral_hidden_service ctl h sid).

Definition proc_terminate : M unit :=
  p ← the_process; call_ EvTerminate (terminate p).
Definition proc_poll : M (option Z) :=
  p ← the_process; call EvPoll (poll p).
Definition proc_kill : M unit :=
  p ← the_process; call_ EvKill (kill p).

Definition controller_from_port (address : string) (port : Z) : M Controller :=
  call (EvFromPort address port) (fun h => from_port w h address port).
Definition controller_from_socket_file (path : string) : M Controller :=
  call (EvFromSocketFile path) (fun h => from_socket_file w h path).

(** [time.time()] *)
Definition time_now : M float :=
  h ← get_trace; log (EvTime (time_time w h));; mret (time_time w h).
(** [time.sleep(millis / 1000)] *)
Definition sleep (millis : Z) : M unit := log (EvSleep millis).
Definition print (m : message) : M unit := log (EvPrint m).

Definition random_randint (lo hi : Z) : M Z :=
  h ← get_trace;
  log (EvRandint lo hi (randint w h lo hi));;
  mret (randint w h lo hi).
Definition sock_bind (host : string) (port : Z) : M unit :=
  call_ (EvBind host port) (fun h => bind w h host port).

(** The value of [res.content()[i][2].split('=')[1]]. *)
Definition content_field (res : reply) (i : nat) : M string :=
  line ← index res i;
  index (split_on "=" (line.2)) 1.

(** *** [_get_available_port] *)

(** The [while True] loop; [getsockname()[1]] is the port the socket was
    bound to. *)
Fixpoint _get_available_port (fuel : nat) : M Z :=
  match fuel with
  | O => out_of_fuel
  | S fuel' =>
      bound ← try_except_on
                 (port ← random_randint 1000 65535;
                  sock_bind "127.0.0.1" port;;
                  mret (Some port))
                 [(ClsOSError, mret None)];
      match bound with
      | Some port => mret port
      | None => _get_available_port fuel'
      end
  end.

(** *** [__init__] *)

Definition callback : Type := history -> string -> option exn.

(** The [while True] loop of the bundled branch. *)
Fixpoint bootstrap_loop (bundled_tor_func : option callback) (start_ts : float)
    (fuel : nat) : M unit :=
  match fuel with
  | O => out_of_fuel
  | S fuel' =>
      res ← c_get_info "status/bootstrap-phase";
      res_parts ← of_option ValueError (shlex_split w res);
      part2 ← index res_parts 2;
      progress ← index (split_on "=" part2) 1;
      part4 ← index res_parts 4;
      summary ← index (split_on "=" part4) 1;
      print (Msg "connecting_to_tor" [progress; summary]);;
      match bundled_tor_func with
      | Some f =>
          let status_string := progress +:+ "% - " +:+ summary in
          call_ (EvCallback status_string) (fun h => f h status_string)
      | None => mret tt
      end;;
      if String.eqb summary "Done" then print (Line "")
      else
        sleep 200;;
        now ← time_now;
        if float_ltb (float_of_Z 45) (float_sub now start_ts) then
          print (Line "");;
          proc_terminate;;
          raise BundledTorTimeout
        else bootstrap_loop bundled_tor_func start_ts fuel'
  end.

(** Lines 151-166 of the bundled branch: the transport of the control
    connection, the ports and the paths of this session. It returns the
    torrc template. *)
Definition bundled_transport (fuel : nat) (dir : string) : M string :=
  if String.eqb (platform_system w) "Windows" then
    t ← call (EvReadFile (get_resource_path w "torrc_template-windows"))
             (fun h => read_file w h (get_resource_path w "torrc_template-windows"));
    port ← _get_available_port fuel;
    modify (set_tor_control_port (Some port));;
    modify (set_tor_control_socket None);;
    modify (set_tor_cookie_auth_file (path_join w dir "cookie"));;
    port ← _get_available_port fuel;
    modify (set_tor_socks_port (Some port));;
    modify (set_tor_torrc (path_join w dir "torrc"));;
    mret t
  else
    t ← call (EvReadFile (get_resource_path w "torrc_template"))
             (fun h => read_file w h (get_resource_path w "torrc_template"));
    modify (set_tor_control_port None);;
    modify (set_tor_control_socket (Some (path_join w dir "control_socket")));;
    modify (set_tor_cookie_auth_file (path_join w dir "cookie"));;
    port ← _get_available_port fuel;
    modify (set_tor_socks_port (Some port));;
    modify (set_tor_torrc (path_join w dir "torrc"));;
    mret t.

(** Lines 168-220: the torrc, the child, the connection and the wait for
    the bootstrap. *)
Definition bundled_launch (fuel : nat) (bundled_tor_func : option callback)
    (dir torrc_template : string) : M unit :=
  let system := platform_system w in
  o ← get_self;
  let t := replace "{{data_directory}}" dir torrc_template in
  let t := replace "{{control_port}}" (str_Z (tor_control_port o)) t in
  let t := replace "{{control_socket}}" (str_s (tor_control_socket o)) t in
  let t := replace "{{cookie_auth_file}}" (tor_cookie_auth_file o) t in
  let t := replace "{{geo_ip_file}}" (tor_geo_ip_file_path o) t in
  let t := replace "{{geo_ipv6_file}}" (tor_geo_ipv6_file_path o) t in
  let t := replace "{{socks_port}}" (str_Z (tor_socks_port o)) t in
  call_ (EvWriteFile (tor_torrc o) t) (fun h => write_file w h (tor_torrc o) t);;
  start_ts ← time_now;
  proc ← call (EvPopen [tor_path o; "-f"; tor_torrc o] (String.eqb system "Windows"))
              (fun h => popen w h [tor_path o; "-f"; tor_torrc o]);
  modify (set_tor_proc (Some proc));;
  sleep 200;;
  (if String.eqb system "Windows" then
     port ← of_option TypeError (tor_control_port o);
     ctl ← controller_from_port "127.0.0.1" port;
     modify (set_c (Some ctl));;
     c_authenticate None
   else
     path ← of_option TypeError (tor_control_socket o);
     ctl ← controller_from_socket_file path;
     modify (set_c (Some ctl));;
     c_authenticate None);;
  bootstrap_loop bundled_tor_func start_ts fuel.

Definition init_bundled (fuel : nat) (bundled_tor_func : option callback)
    (bundle_tor_supported : bool) : M unit :=
  if negb bundle_tor_supported then raise BundledTorNotSupported else
  dir ← call EvTempDir (temporary_directory w);
  modify (set_tor_data_directory (Some dir));;
  torrc_template ← bundled_transport fuel dir;
  bundled_launch fuel bundled_tor_func dir torrc_template.

Definition local_socket_file_path : M string :=
  f ← get_frame; of_option UnboundLocalError (socket_file_path_ f).

Definition init_automatic : M unit :=
  let system := platform_system w in
  set_found_tor false;;
  (if truthy (environ_TOR_CONTROL_PORT w) then
     try_except
       (port ← of_option ValueError (py_int w (default "" (environ_TOR_CONTROL_PORT w)));
        ctl ← controller_from_port "127.0.0.1" port;
        modify (set_c (Some ctl));;
        set_found_tor true)
       (fun _ => mret tt)
   else
     try_except
       (for_each [9151; 9153; 9051] (fun port =>
          ctl ← controller_from_port "127.0.0.1" port;
          modify (set_c (Some ctl));;
          set_found_tor true))
       (fun _ => mret tt);;
     set_socket_file_path "";;
     f ← get_frame;
     if negb (found_tor f) then
       try_except
         ((if String.eqb system "Darwin" then
             set_socket_file_path
               (expanduser w "~/Library/Application Support/TorBrowser-Data/Tor/control.socket")
           else mret tt);;
          path ← local_socket_file_path;
          ctl ← controller_from_socket_file path;
          modify (set_c (Some ctl));;
          set_found_tor true)
         (fun _ => mret tt)
     else mret tt);;
  f ← get_frame;
  (if negb (found_tor f) then
     try_except
       ((if String.eqb system "Linux" then
           set_socket_file_path ("/run/user/" +:+ pretty (geteuid w) +:+ "/Tor/control.socket")
         else if String.eqb system "Darwin" then
           set_socket_file_path ("/run/user/" +:+ pretty (geteuid w) +:+ "/Tor/control.socket")
         else if String.eqb system "Windows" then
           raise TorErrorAutomatic
         else mret tt);;
        path ← local_socket_file_path;
        ctl ← controller_from_socket_file path;
        modify (set_c (Some ctl)))
       (fun _ => raise TorErrorAutomatic)
   else mret tt);;
  try_except (c_authenticate None) (fun _ => raise TorErrorAutomatic).

Definition init_manual : M unit :=
  o ← get_self;
  let s := settings o in
  try_except
    (if String.eqb (connection_type s) "control_port" then
       ctl ← controller_from_port (control_port_address s) (control_port_port s);
       modify (set_c (Some ctl))
     else if String.eqb (connection_type s) "socket_file" then
       ctl ← controller_from_socket_file (socket_file_path s);
       modify (set_c (Some ctl))
     else raise TorErrorInvalidSetting)
    (fun _ =>
       if String.eqb (connection_type s) "control_port" then
         raise (TorErrorSocketPort (control_port_address s) (control_port_port s))
       else
         raise (TorErrorSocketFile (socket_file_path s)));;
  try_except_on
    (if String.eqb (auth_type s) "no_auth" then c_authenticate None
     else if String.eqb (auth_type s) "password" then
       c_authenticate (Some (auth_password s))
     else raise TorErrorInvalidSetting)
    [(ClsMissingPassword, raise TorErrorMissingPassword);
     (ClsUnreadableCookieFile, raise TorErrorUnreadableCookieFile);
     (ClsAuthenticationFailure,
      raise (TorErrorAuthError (control_port_address s) (control_port_port s)))].

(** The stealth probe that ends [__init__]. *)
Definition probe_stealth : M unit :=
  try_except
    (res ← c_create_ephemeral_hidden_service {[1 := 1]}
             (Some {["onionshare" := None]}) false;
     tmp_service_id ← content_field res 0;
     c_remove_ephemeral_hidden_service tmp_service_id;;
     modify (set_supports_stealth true))
    (fun _ => modify (set_supports_stealth false)).

Definition __init__ (fuel : nat) (stealth_ : bool) (settings_ : option Settings)
    (bundled_tor_func : option callback) : M unit :=
  modify (set_stealth stealth_);;
  modify (set_service_id None);;
  let system := platform_system w in
  s ← match settings_ with
      | Some s => mret s
      | None => call EvLoadSettings (settings_load w)
      end;
  modify (set_settings s);;
  let bundle_tor_supported :=
    negb ((String.eqb system "Windows" || String.eqb system "Darwin")
          && onionshare_dev_mode w) in
  modify (set_tor_paths (get_tor_paths w));;
  modify (set_tor_proc None);;
  modify (set_c None);;
  (if String.eqb (connection_type s) "bundled" then
     init_bundled fuel bundled_tor_func bundle_tor_supported
   else if String.eqb (connection_type s) "automatic" then
     init_automatic
   else
     init_manual);;
  version ← c_get_version;
  modify (set_tor_version version);;
  ctl ← the_controller;
  modify (set_supports_ephemeral
            (has_list_ephemeral_hidden_services ctl && String.leb "0.2.7.1" version));;
  probe_stealth.

(** *** [start] *)

Definition start (port : Z) : M string :=
  modify (set_auth_string None);;
  o ← get_self;
  if negb (supports_ephemeral o) then raise TorTooOld else
  if stealth o && negb (supports_stealth o) then raise TorTooOld else
  print (Msg "config_onion_service" [pretty port]);;
  print (Msg "using_ephemeral" []);;
  let basic_auth : option (gmap string (option string)) :=
    if stealth o then Some {["onionshare" := None]} else None in
  res ← try_except_on
          (match basic_auth with
           | Some _ => c_create_ephemeral_hidden_service {[80 := port]} basic_auth true
           | None => c_create_ephemeral_hidden_service {[80 := port]} None true
           end)
          [(ClsProtocolError, raise TorErrorProtocolError)];
  sid ← content_field res 0;
  modify (set_service_id (Some sid));;
  let onion_host := sid +:+ ".onion" in
  (if stealth o then
     field ← content_field res 2;
     auth_cookie ← index (split_on ":" field) 1;
     modify (set_auth_string (Some ("HidServAuth " +:+ onion_host +:+ " " +:+ auth_cookie)))
   else mret tt);;
  mret onion_host.

(** *** [cleanup] *)

Definition cleanup : M unit :=
  o ← get_self;
  (if truthy (service_id o) then
     try_except
       (c_remove_ephemeral_hidden_service (default "" (service_id o)))
       (fun _ => mret tt);;
     modify (set_service_id None)
   else mret tt);;
  o ← get_self;
  match tor_proc o with
  | Some _ =>
      proc_terminate;;
      sleep 200;;
      status ← proc_poll;
      (if py_not status then proc_kill else mret tt);;
      modify (set_tor_proc None)
  | None => mret tt
  end.

(** *** [get_tor_socks_port] *)

Definition get_tor_socks_port : M (string * option Z) :=
  o ← get_self;
  if String.eqb (connection_type (settings o)) "bundled" then
    mret ("127.0.0.1", tor_socks_port o)
  else if String.eqb (connection_type (settings o)) "automatic" then
    mret ("127.0.0.1", Some 9150)
  else
    mret (socks_address (settings o), Some (socks_port (settings o))).

End Onion.

(** ** What a run leaves behind

    The vocabulary of the statements below: what a reply reports, what a
    history contains, what a call leaves of the object. *)

(** The value a reply line carries after its [=]:
    [res.content()[i][2].split('=')[1]]. *)
Definition field_of (res : reply) (i : nat) : option string :=
  line ← res !! i; split_on "=" (line.2) !! 1%nat.

(** The cookie of the [ClientAuth=<name>:<cookie>] line. *)
Definition cookie_of (res : reply) : option string :=
  field ← field_of res 2; split_on ":" field !! 1%nat.

(** [{'onionshare': None}] *)
Definition sentinel_auth : option (gmap string (option string)) :=
  Some {["onionshare" := None]}.

(** The throwaway service of the stealth probe. *)
Definition sentinel_create : event := EvCreate {[1 := 1]} sentinel_auth false.

Definition with_auth_string (a : option string) (st : St) : St :=
  mkSt (set_auth_string a (self st)) (frame st) (trace st).

Definition append (evs : list event) (st : St) : St :=
  mkSt (self st) (frame st) (trace st ++ evs).

(** The time slept in a history, in milliseconds. *)
Fixpoint slept (h : history) : Z :=
  match h with
  | [] => 0
  | EvSleep ms :: rest => ms + slept rest
  | _ :: rest => slept rest
  end.

(** *** Teardown *)

(** Neither [terminate()], [poll()] nor [kill()] raises. *)
Definition signals_succeed (p : Popen) : Prop :=
  ∀ h, terminate p h = None ∧ (∃ status, poll p h = Ok status) ∧ kill p h = None.

Definition after_removal (o : Onion) : Onion :=
  if truthy (service_id o) then set_service_id None o else o.
Definition after_stop (o : Onion) : Onion :=
  match tor_proc o with Some _ => set_tor_proc None o | None => o end.
Definition removal_events (o : Onion) : list event :=
  if truthy (service_id o) then
    match c o with
    | Some _ => [EvRemove (default EmptyString (service_id o))]
    | None => []
    end
  else [].
Definition poll_status (st : St) : option Z :=
  match tor_proc (self st) with
  | Some p =>
      match poll p (trace st ++ removal_events (self st) ++ [EvTerminate; EvSleep 200]) with
      | Ok status => status
      | Raise _ => None
      end
  | None => None
  end.
Definition stop_events (o : Onion) (status : option Z) : list event :=
  match tor_proc o with
  | Some _ => [EvTerminate; EvSleep 200; EvPoll] ++ (if py_not status then [EvKill] else [])
  | None => []
  end.

(** *** Bootstrap *)

(** The [i]-th word of a bootstrap-phase reply, after its [=]. *)
Definition reply_field (w : World) (i : nat) (res : string) : option string :=
  parts ← shlex_split w res; part ← parts !! i; split_on "=" part !! 1%nat.
Definition progress_of (w : World) : string → option string := reply_field w 2.
Definition summary_of (w : World) : string → option string := reply_field w 4.

Definition polls (h : history) : list (result string) :=
  omap (λ e, match e with EvGetInfo _ a => Some a | _ => None end) h.
Definition clock_readings (h : history) : list float :=
  omap (λ e, match e with EvTime t => Some t | _ => None end) h.
Definition terminations (h : history) : nat :=
  List.length (omap (λ e, match e with EvTerminate => Some e | _ => None end) h).

Definition not_done (w : World) (a : result string) : Prop :=
  ∃ res su, a = Ok res ∧ summary_of w res = Some su ∧ su ≠ "Done".

(** The test of line 217 on a clock reading: [time.time() - start_ts > 45]
    in binary64 arithmetic. *)
Definition past_the_cap (start_ts now : float) : bool :=
  float_ltb (float_of_Z 45) (float_sub now start_ts).
(** A clock reading on which that test fails. *)
Definition on_time (start_ts : float) (t : float) : Prop := past_the_cap start_ts t = false.

(** What the bootstrap loop added to the history, and how it ended:
    either it returned at a poll that said [Done], the first to say so,
    the last it made, the process untouched; or it raised
    [BundledTorTimeout] at the first clock reading past the 45 seconds,
    no poll having said [Done], the process terminated once. *)
Definition monitored (w : World) (start_ts : float) (added : history) (r : outcome unit)
    : Prop :=
  (r = Val tt ∧
   (∃ earlier last,
      polls added = earlier ++ [Ok last] ∧
      summary_of w last = Some "Done" ∧
      Forall (not_done w) earlier) ∧
   terminations added = 0%nat ∧
   Forall (on_time start_ts) (clock_readings added))
  ∨
  (r = Exc BundledTorTimeout ∧
   Forall (not_done w) (polls added) ∧
   terminations added = 1%nat ∧
   ∃ earlier now,
     clock_readings added = earlier ++ [now] ∧
     Forall (on_time start_ts) earlier ∧
     past_the_cap start_ts now = true).

(** What one round of the loop records before it looks at the summary. *)
Definition status_events (f : option callback) (progress summary : string) : list event :=
  EvPrint (Msg "connecting_to_tor" [progress; summary]) ::
  match f with
  | Some _ => [EvCallback (progress +:+ "% - " +:+ summary)]
  | None => []
  end.

(** One round on the reply [res]: the poll and the status line. *)
Definition round_events (f : option callback) (res progress summary : string) : list event :=
  EvGetInfo "status/bootstrap-phase" (Ok res) :: status_events f progress summary.

(** The rounds of the monitor against the world, from the history [h] on:
    [rounds w f ctl start_ts h added r] when [added] is what is recorded
    after [h] and [r] the way it ends, if in every round the controller is
    polled first and its answer to [status/bootstrap-phase] at that point
    decides. An answer [Done] ends the run. Any other is followed by a sleep
    of 0.2 s and a reading of the world's clock: past the 45 seconds it is
    the empty line, [terminate()] and [BundledTorTimeout], otherwise the
    next round. *)
Inductive rounds (w : World) (f : option callback) (ctl : Controller) (start_ts : float)
    : history → history → outcome unit → Prop :=
  | rounds_done h res pr :
      get_info ctl h "status/bootstrap-phase" = Ok res →
      progress_of w res = Some pr →
      summary_of w res = Some "Done" →
      rounds w f ctl start_ts h (round_events f res pr "Done" ++ [EvPrint (Line "")]) (Val tt)
  | rounds_timeout h res pr su now :
      get_info ctl h "status/bootstrap-phase" = Ok res →
      progress_of w res = Some pr →
      summary_of w res = Some su →
      su ≠ "Done" →
      now = time_time w (h ++ round_events f res pr su ++ [EvSleep 200]) →
      past_the_cap start_ts now = true →
      rounds w f ctl start_ts h
        (round_events f res pr su ++ [EvSleep 200; EvTime now; EvPrint (Line ""); EvTerminate])
        (Exc BundledTorTimeout)
  | rounds_next h res pr su now rest r :
      get_info ctl h "status/bootstrap-phase" = Ok res →
      progress_of w res = Some pr →
      summary_of w res = Some su →
      su ≠ "Done" →
      now = time_time w (h ++ round_events f res pr su ++ [EvSleep 200]) →
      past_the_cap start_ts now = false →
      rounds w f ctl start_ts
        (h ++ round_events f res pr su ++ [EvSleep 200; EvTime now]) rest r →
      rounds w f ctl start_ts h (round_events f res pr su ++ [EvSleep 200; EvTime now] ++ rest) r.

(** *** Port allocation *)

(** [m] keeps the property [P] of the state, however it ends. *)
Definition keeps {A} (P : St → Prop) (m : M A) : Prop :=
  ∀ st, P st → P (m st).1.

(** The probe socket was bound to [port] on the loopback address at some
    point of [h]: the call is in the history and it did not raise. *)
Definition bound_in (w : World) (port : Z) (h : history) : Prop :=
  ∃ before after,
    h = before ++ EvBind "127.0.0.1" port :: after ∧
    bind w before "127.0.0.1" port = None.

(** The control port and the SOCKS port of a bundled session that
    allocates both. *)
Definition session (w : World) (control socks : Z) (st : St) : Prop :=
  tor_control_port (self st) = Some control ∧
  tor_socks_port (self st) = Some socks ∧
  bound_in w control (trace st) ∧
  bound_in w socks (trace st).

(** *** Start *)

(** What a successful [start port] did, from [st] to [st'], and the host
    name it returned. *)
Definition started (port : Z) (st st' : St) (host : string) : Prop :=
  ∃ ctl res sid,
    let prints := [EvPrint (Msg "config_onion_service" [pretty port]);
                   EvPrint (Msg "using_ephemeral" [])] in
    let auth := if stealth (self st) then sentinel_auth else None in
    c (self st) = Some ctl ∧
    supports_ephemeral (self st) = true ∧
    trace st' = trace st ++ prints ++ [EvCreate {[80 := port]} auth true] ∧
    create_ephemeral_hidden_service ctl (trace st ++ prints) {[80 := port]} auth true
      = Ok res ∧
    field_of res 0 = Some sid ∧
    host = sid +:+ ".onion" ∧
    service_id (self st') = Some sid ∧
    (∀ id rest, res = ("250", "-", "ServiceID=" +:+ id) :: rest →
                (∀ a, a ∈ list_ascii_of_string id → a ≠ "="%char) →
                host = id +:+ ".onion") ∧
    (if stealth (self st)
     then ∃ cookie, cookie_of res = Some cookie ∧
            auth_string (self st') = Some ("HidServAuth " +:+ host +:+ " " +:+ cookie)
     else auth_string (self st') = None).

(** ** Test doubles

    Concrete worlds, controllers and processes on which the methods are
    evaluated. *)

Module Doubles.

(** Enough of [shlex.split] for the replies below: blanks separate
    words, quotes group and are dropped, an open quote is a
    [ValueError]. *)
Definition is_blank (a : ascii) : bool :=
  Ascii.eqb a " " || Ascii.eqb a "009" || Ascii.eqb a "010" || Ascii.eqb a "013".
Definition is_quote (a : ascii) : bool :=
  Ascii.eqb a "034" || Ascii.eqb a "'".

(** A summary as Tor writes it, between double quotes. *)
Definition quoted (s : string) : string :=
  String "034" s +:+ String "034" EmptyString.

Fixpoint words (s : string) (token : option string) (quote : option ascii)
    : option (list string) :=
  match s with
  | EmptyString =>
      match quote, token with
      | Some _, _ => None
      | None, Some t => Some [t]
      | None, None => Some []
      end
  | String a rest =>
      match quote with
      | Some q =>
          if Ascii.eqb a q then words rest token None
          else words rest (Some (default EmptyString token +:+ String a EmptyString)) quote
      | None =>
          if is_blank a then
            match token with
            | Some t => (fun l => t :: l) <$> words rest None None
            | None => words rest None None
            end
          else if is_quote a then words rest (Some (default EmptyString token)) (Some a)
          else words rest (Some (default EmptyString token +:+ String a EmptyString)) None
      end
  end.

(** Enough of [int]: a run of decimal digits. *)
Definition digit (a : ascii) : option Z :=
  let n := Z.of_nat (nat_of_ascii a) in
  if (48 <=? n) && (n <=? 57) then Some (n - 48) else None.
Fixpoint digits (s : string) (acc : Z) : option Z :=
  match s with
  | EmptyString => Some acc
  | String a rest =>
      match digit a with
      | Some d => digits rest (10 * acc + d)
      | None => None
      end
  end.
Definition int (s : string) : option Z :=
  match s with
  | EmptyString => None
  | _ => digits s 0
  end.

Definition add_onion_reply (sid : string) (cookie : option string) : reply :=
  [("250", "-", "ServiceID=" +:+ sid);
   ("250", "-", "PrivateKey=RSA1024:MIICXAIBAAKBgQC");
   ("250", "-", "ClientAuth=onionshare:" +:+ default "" cookie);
   ("250", " ", "OK")].

(** A Tor that bootstraps at once and grants every request. *)
Definition tor : Controller :=
  mkController
    (fun _ _ => None)
    (fun _ _ => Ok ("NOTICE BOOTSTRAP PROGRESS=100 TAG=done SUMMARY=" +:+ quoted "Done"))
    (fun _ => Ok "0.2.9.9")
    true
    (fun _ _ auth _ =>
       Ok (add_onion_reply "duskgytldkxiuqc6"
             (match auth with Some _ => Some "vJYg3zqBqlmpEg5uTzgVpw" | None => None end)))
    (fun _ _ => None).

(** A Tor that never gets past 50%. *)
Definition stuck_tor : Controller :=
  mkController
    (fun _ _ => None)
    (fun _ _ =>
       Ok ("NOTICE BOOTSTRAP PROGRESS=50 TAG=loading_descriptors SUMMARY="
           +:+ quoted "Loading relay descriptors"))
    (fun _ => Ok "0.2.9.9")
    true
    (fun _ _ _ _ => Raise ProtocolError)
    (fun _ _ => None).

(** A Tor whose ADD_ONION and DEL_ONION fail. *)
Definition old_tor : Controller :=
  mkController
    (fun _ _ => None)
    (fun _ _ => Raise ProtocolError)
    (fun _ => Ok "0.2.6.10")
    false
    (fun _ _ _ _ => Raise ProtocolError)
    (fun _ _ => Some ProtocolError).

(** A child that exits with status [code] when told to terminate. *)
Definition child_exiting (code : Z) : Popen :=
  mkPopen (fun _ => None) (fun _ => Ok (Some code)) (fun _ => None).
(** A child that ignores the terminate signal. *)
Definition child_hanging : Popen :=
  mkPopen (fun _ => None) (fun _ => Ok None) (fun _ => None).
(** A child that cannot be killed. *)
Definition child_unkillable : Popen :=
  mkPopen (fun _ => None) (fun _ => Ok None) (fun _ => Some OSError).
(** A child that is gone: signalling it fails. *)
Definition child_gone : Popen :=
  mkPopen (fun _ => Some OSError) (fun _ => Ok (Some 0)) (fun _ => Some OSError).

Definition automatic : Settings :=
  mkSettings "automatic" "127.0.0.1" 9051 "/var/run/tor/control" "no_auth" "" "127.0.0.1" 9050.
Definition bundled : Settings :=
  mkSettings "bundled" "127.0.0.1" 9051 "/var/run/tor/control" "no_auth" "" "127.0.0.1" 9050.
Definition manual (kind auth : string) : Settings :=
  mkSettings kind "127.0.0.1" 9051 "/var/run/tor/control" auth "secret" "127.0.0.1" 9050.

(** A host of the given platform on which [port_open] and [socket_open]
    say where a controller listens, every port can be bound and the
    random generator always draws [drawn]. *)
(** A clock that advances by exactly the time slept: milliseconds as
    seconds, [millis / 1000]. *)
Definition seconds (millis : Z) : float :=
  float_div (float_of_Z millis) (float_of_Z 1000).

Definition host (system : string) (port_open : Z -> option Controller)
    (socket_open : string -> option Controller) (child : Popen) (drawn : Z) : World :=
  mkWorld system false None 1000
    (fun p => "/Users/alice" +:+ String.substring 1 (String.length p - 1) p)
    (fun d f => d +:+ "/" +:+ f)
    int
    (fun s => words s None None)
    (fun _ => Ok automatic)
    ("/usr/bin/tor", "/usr/share/tor/geoip", "/usr/share/tor/geoip6")
    (fun name => "/usr/share/onionshare/" +:+ name)
    (fun _ => Ok "/tmp/tmpk3x1")
    (fun _ _ => Ok "DataDirectory {{data_directory}} SocksPort {{socks_port}} ControlPort {{control_port}}")
    (fun _ _ _ => None)
    (fun _ _ => Ok child)
    (fun h => seconds (slept h))
    (fun _ _ _ => drawn)
    (fun _ _ _ => None)
    (fun _ _ p => match port_open p with Some ctl => Ok ctl | None => Raise SocketError end)
    (fun _ p => match socket_open p with Some ctl => Ok ctl | None => Raise SocketError end).

Definition nowhere {A} : A -> option Controller := fun _ => None.

Definition fresh : St := mkSt blank (mkLocals false None) [].

Definition linux_without_tor : World :=
  host "Linux" nowhere nowhere child_hanging 5000.
(** Only the system Tor, on its port 9051. *)
Definition linux_with_system_tor : World :=
  host "Linux" (fun p => if p =? 9051 then Some tor else None) nowhere child_hanging 5000.
Definition windows_with_tor : World :=
  host "Windows" (fun _ => Some tor) nowhere child_hanging 5000.

(** A manager as [__init__] leaves it: connected to [ctl]. *)
Definition manager (stealth_ ephemeral stealth_ok : bool) (ctl : option Controller)
    (proc : option Popen) (sid auth : option string) : St :=
  mkSt (mkOnion stealth_ sid automatic "" "" "" proc ctl None None None "" None "" "0.2.9.9"
          ephemeral stealth_ok auth)
       (mkLocals false None) [].

End Doubles.

(** ** More vocabulary, for the properties beyond the claims *)

(** *** Histories *)

(** The service ids a history asks the controller to remove, and the
    services it asks it to create. *)
Definition removals (h : history) : list string :=
  omap (λ e, match e with EvRemove sid => Some sid | _ => None end) h.
Definition creations (h : history) : list event :=
  omap (λ e, match e with EvCreate _ _ _ => Some e | _ => None end) h.
(** The TCP ports a history connects to. *)
Definition from_ports (h : history) : list Z :=
  omap (λ e, match e with EvFromPort _ port => Some port | _ => None end) h.
(** The status strings handed to the progress callback. *)
Definition callbacks (h : history) : list string :=
  omap (λ e, match e with EvCallback s => Some s | _ => None end) h.

(** *** [start] *)

(** What [start port] prints before it calls the controller. *)
Definition start_prints (port : Z) : list event :=
  [EvPrint (Msg "config_onion_service" [pretty port]);
   EvPrint (Msg "using_ephemeral" [])].
(** The call of [start port] to the controller. *)
Definition start_create (port : Z) (o : Onion) : event :=
  EvCreate {[80 := port]} (if stealth o then sentinel_auth else None) true.
(** What the controller answers to it. *)
Definition start_answer (port : Z) (st : St) (ctl : Controller) : result reply :=
  create_ephemeral_hidden_service ctl (trace st ++ start_prints port) {[80 := port]}
    (if stealth (self st) then sentinel_auth else None) true.
(** The two guards of [start] let the call through. *)
Definition start_allowed (o : Onion) : Prop :=
  supports_ephemeral o = true ∧ (stealth o = true → supports_stealth o = true).

(** *** Manual settings *)

Definition manual_transport (s : Settings) : Prop :=
  connection_type s = "control_port" ∨ connection_type s = "socket_file".
(** The connection that the settings ask for, and what the world answers
    to it. *)
Definition manual_connect_event (s : Settings) : event :=
  if String.eqb (connection_type s) "control_port"
  then EvFromPort (control_port_address s) (control_port_port s)
  else EvFromSocketFile (socket_file_path s).
Definition manual_connect (w : World) (s : Settings) (h : history) : result Controller :=
  if String.eqb (connection_type s) "control_port"
  then from_port w h (control_port_address s) (control_port_port s)
  else from_socket_file w h (socket_file_path s).
(** The argument of [authenticate] for the auth type of the settings;
    [None]: the auth type is not one the code knows. *)
Definition manual_credential (s : Settings) : option (option string) :=
  if String.eqb (auth_type s) "no_auth" then Some None
  else if String.eqb (auth_type s) "password" then Some (Some (auth_password s))
  else None.
(** What an exception of [authenticate] becomes (lines 311-316). *)
Definition auth_error (s : Settings) (e : exn) : exn :=
  if isinstance e ClsMissingPassword then TorErrorMissingPassword
  else if isinstance e ClsUnreadableCookieFile then TorErrorUnreadableCookieFile
  else if isinstance e ClsAuthenticationFailure
  then TorErrorAuthError (control_port_address s) (control_port_port s)
  else e.

(** *** Bootstrap *)

(** ["<progress>% - <summary>"] for a poll. *)
Definition status_line (w : World) (a : result string) : option string :=
  match a with
  | Ok res =>
      pr ← progress_of w res; su ← summary_of w res; Some (pr +:+ "% - " +:+ su)
  | Raise _ => None
  end.
(** Every poll of [h] was handed to the callback, in order, as its status
    line, and the callback was called for nothing else. *)
Definition reported (w : World) (h : history) : Prop :=
  Forall2 (λ a s, status_line w a = Some s) (polls h) (callbacks h).

(** *** Construction *)

(** What the first lines of [__init__] assign and [start] works with. *)
Definition built (stealth_ : bool) (s : Settings) (st : St) : Prop :=
  stealth (self st) = stealth_ ∧
  settings (self st) = s ∧
  service_id (self st) = None.
Definition no_process (st : St) : Prop := tor_proc (self st) = None.
Definition socks_allocated (w : World) (s : Settings) (socks : Z) (st : St) : Prop :=
  settings (self st) = s ∧
  tor_socks_port (self st) = Some socks ∧
  bound_in w socks (trace st).
Definition connected (ctl : Controller) (ephemeral : bool) (st : St) : Prop :=
  c (self st) = Some ctl ∧ supports_ephemeral (self st) = ephemeral.

(** *** More test doubles *)

Module Cases.

(** [w] with the environment variable set, or in dev mode. *)
Definition with_environment (override : option string) (dev_mode : bool) (w : World)
    : World :=
  mkWorld (platform_system w) dev_mode override (geteuid w) (expanduser w) (path_join w)
    (py_int w) (shlex_split w) (settings_load w) (get_tor_paths w) (get_resource_path w)
    (temporary_directory w) (read_file w) (write_file w) (popen w) (time_time w)
    (randint w) (bind w) (from_port w) (from_socket_file w).

(** A Tor that asks for the password [pw]. *)
Definition password_tor (pw : string) : Controller :=
  mkController
    (fun _ cred =>
       match cred with
       | None => Some MissingPassword
       | Some p => if String.eqb p pw then None else Some AuthenticationFailure
       end)
    (get_info Doubles.tor)
    (get_version Doubles.tor)
    true
    (create_ephemeral_hidden_service Doubles.tor)
    (remove_ephemeral_hidden_service Doubles.tor).

(** A Tor that answers every request with the given reply. *)
Definition answering (info : string) (created : reply) : Controller :=
  mkController
    (fun _ _ => None)
    (fun _ _ => Ok info)
    (fun _ => Ok "0.2.9.9")
    true
    (fun _ _ _ _ => Ok created)
    (fun _ _ => None).

(** Tor Browser alone, on its port 9151. *)
Definition linux_with_tor_browser : World :=
  Doubles.host "Linux" (fun p => if p =? 9151 then Some Doubles.tor else None)
    Doubles.nowhere Doubles.child_hanging 5000.
(** A Tor that wants a password, on every port. *)
Definition linux_with_password_tor : World :=
  Doubles.host "Linux" (fun _ => Some (password_tor "secret"))
    Doubles.nowhere Doubles.child_hanging 5000.
(** An old Tor on every port. *)
Definition linux_with_old_tor : World :=
  Doubles.host "Linux" (fun _ => Some Doubles.old_tor)
    Doubles.nowhere Doubles.child_hanging 5000.

(** A Tor without a password on every port. *)
Definition linux_with_tor_everywhere : World :=
  Doubles.host "Linux" (fun _ => Some Doubles.tor)
    Doubles.nowhere Doubles.child_hanging 5000.

(** An object that holds the settings [s] and nothing else. *)
Definition configured (s : Settings) : St :=
  mkSt (mkOnion false None s "" "" "" None None None None None "" None "" ""
          false false None)
       (mkLocals false None) [].

(** An object constructed and started before, with the service [a] and
    the given auth string recorded. *)
Definition configured_with_auth_string (auth : string) : St :=
  Doubles.manager true true true (Some Doubles.tor) None (Some "a") (Some auth).

(** A progress callback that returns. *)
Definition quiet : callback := fun _ _ => None.

(** A Tor that is at 50% for its first [n] polls and done from then
    on. *)
Definition ready_after (n : nat) : Controller :=
  mkController
    (authenticate Doubles.tor)
    (fun h key =>
       if (List.length (polls h) <? n)%nat then get_info Doubles.stuck_tor h key
       else get_info Doubles.tor h key)
    (get_version Doubles.tor)
    true
    (create_ephemeral_hidden_service Doubles.tor)
    (remove_ephemeral_hidden_service Doubles.tor).

(** [w] with another clock. *)
Definition with_clock (clock : history → float) (w : World) : World :=
  mkWorld (platform_system w) (onionshare_dev_mode w) (environ_TOR_CONTROL_PORT w)
    (geteuid w) (expanduser w) (path_join w) (py_int w) (shlex_split w) (settings_load w)
    (get_tor_paths w) (get_resource_path w) (temporary_directory w) (read_file w)
    (write_file w) (popen w) clock (randint w) (bind w) (from_port w) (from_socket_file w).

(** A clock that advances by the time slept for the first 45 seconds and
    reads 46 seconds after that. *)
Definition wall_clock (h : history) : float :=
  if 45000 <? slept h then float_of_Z 46 else Doubles.seconds (slept h).
Definition linux_with_wall_clock : World := with_clock wall_clock Doubles.linux_without_tor.

End Cases.

(** ** Proofs *)

#[local] Set Warnings "-clear-no-such-hyp".

Ltac unfold_m :=
  unfold c_create_ephemeral_hidden_service, c_remove_ephemeral_hidden_service,
    c_authenticate, c_get_version, c_get_info,
    proc_terminate, proc_poll, proc_kill, the_controller, the_process,
    controller_from_port, controller_from_socket_file, time_now, random_randint,
    sock_bind, sleep, print, call, call_, try_except_on, try_except, dispatch,
    of_result, of_status, of_option, get_self, get_trace, get_frame, modify, log,
    raise, out_of_fuel, mbind, mret, M_bind, M_ret, bind_, ret in *.
Ltac unfold_all := unfold content_field, index in *; unfold_m.

(** *** Replies *)

Lemma content_field_eq res i st :
  content_field res i st =
  (st, match field_of res i with Some v => Val v | None => Exc IndexError end).
Proof.
  unfold content_field, field_of, index. unfold_m.
  destruct (res !! i) as [line|]; simpl; [|done].
  by destruct (split_on "=" line.2 !! 1%nat).
Qed.

Lemma split_on_no_sep sep s :
  (∀ a, a ∈ list_ascii_of_string s → a ≠ sep) → split_on sep s = [s].
Proof.
  induction s as [|a s IH]; simpl; intros H; [done|].
  destruct (Ascii.eqb_spec a sep) as [->|_].
  - exfalso. eapply H; [left|done].
  - rewrite IH; [done|]. intros b Hb. apply H. by right.
Qed.

Lemma split_on_key_value sep k v :
  (∀ a, a ∈ list_ascii_of_string k → a ≠ sep) →
  split_on sep (k +:+ String sep v) = k :: split_on sep v.
Proof.
  induction k as [|a k IH]; simpl; intros H.
  - by rewrite Ascii.eqb_refl.
  - destruct (Ascii.eqb_spec a sep) as [->|_].
    + exfalso. eapply H; [left|done].
    + rewrite IH; [done|]. intros b Hb. apply H. by right.
Qed.

Lemma field_of_key_value (code divider k v : string) (rest : reply) :
  (∀ a, a ∈ list_ascii_of_string k → a ≠ "="%char) →
  (∀ a, a ∈ list_ascii_of_string v → a ≠ "="%char) →
  field_of ((code, divider, k +:+ String "=" v) :: rest) 0 = Some v.
Proof.
  intros Hk Hv. unfold field_of.
  change (((code, divider, k +:+ String "=" v) :: rest) !! 0%nat)
    with (Some (code, divider, k +:+ String "=" v)).
  cbn [mbind option_bind snd].
  by rewrite split_on_key_value, split_on_no_sep.
Qed.

(** A [ServiceID=<id>] line reports [<id>]. *)
Lemma service_id_line (id sid : string) (rest : reply) :
  (∀ a, a ∈ list_ascii_of_string id → a ≠ "="%char) →
  field_of (("250", "-", "ServiceID=" +:+ id) :: rest) 0 = Some sid → sid = id.
Proof.
  intros Hid.
  change ("ServiceID=" +:+ id) with ("ServiceID" +:+ String "=" id).
  rewrite field_of_key_value; [congruence| |done].
  intros a Ha ->. simpl in Ha.
  by repeat (apply elem_of_cons in Ha as [Ha|Ha]; [discriminate|]);
    apply elem_of_nil in Ha.
Qed.

(** *** [start] *)

(** C4. For every manager and every port, [start port] raises [TorTooOld]
    when ephemeral services are unsupported, or when stealth was requested
    and is unsupported; it does so before any call to the controller: the
    history is unchanged, no service was created. *)
Theorem start_too_old port st :
  supports_ephemeral (self st) = false ∨
  (stealth (self st) = true ∧ supports_stealth (self st) = false) →
  (start port st).2 = Exc TorTooOld ∧ trace (start port st).1 = trace st.
Proof.
  intros H. unfold start. unfold_m. simpl.
  destruct H as [-> | [-> ->]]; simpl; [done|].
  by destruct (supports_ephemeral (self st)).
Qed.

Lemma start_too_old_witness :
  (supports_ephemeral (self (Doubles.manager false false true (Some Doubles.tor) None None None))
     = false ∨
   (stealth (self (Doubles.manager false false true (Some Doubles.tor) None None None)) = true ∧
    supports_stealth (self (Doubles.manager false false true (Some Doubles.tor) None None None))
      = false)) ∧
  (start 8080 (Doubles.manager false false true (Some Doubles.tor) None None None)).2
    = Exc TorTooOld.
Proof.
  split; [left; reflexivity|].
  apply (start_too_old 8080 (Doubles.manager false false true (Some Doubles.tor) None None None)).
  left. reflexivity.
Defined.

(** C3. A successful [start port] made one call to the controller,
    [create_ephemeral_hidden_service] with the port map [{80: port}],
    publication awaited (and the [onionshare] basic-auth entry exactly when
    stealth was requested); the host name it returns is the service id of
    the reply followed by [.onion] (for a reply line [ServiceID=<id>], it is
    [<id>.onion]); with stealth the auth string is
    [HidServAuth <host> <cookie>] for the cookie of the reply, without
    stealth it is [None]. *)
Theorem start_onion_host port st st' host :
  start port st = (st', Val host) → started port st st' host.
Proof.
  unfold started, start. unfold_m. simpl.
  destruct (supports_ephemeral (self st)) eqn:Heph; simpl; [|done].
  destruct (stealth (self st)) eqn:Hst; simpl.
  - destruct (supports_stealth (self st)); simpl; [|done].
    destruct (c (self st)) as [ctl|] eqn:Hc; simpl; [|done].
    rewrite <- !app_assoc. simpl.
    destruct (create_ephemeral_hidden_service ctl _ _ _ _) as [res|e] eqn:Hres; simpl.
    2:{ by destruct e. }
    rewrite content_field_eq.
    destruct (field_of res 0) as [sid|] eqn:Hsid; simpl; [|done].
    rewrite content_field_eq. unfold cookie_of.
    destruct (field_of res 2) as [field|] eqn:Hf; simpl; [|done].
    unfold index. unfold_m.
    destruct (split_on ":" field !! 1%nat) as [cookie|] eqn:Hck; simpl; [|done].
    intros [= <- <-]. exists ctl, res, sid. simpl.
    split_and!; try done.
    + intros id rest -> Hid. f_equal. by eapply service_id_line.
    + exists cookie. rewrite Hf. simpl. by rewrite Hck.
  - destruct (c (self st)) as [ctl|] eqn:Hc; simpl; [|done].
    rewrite <- !app_assoc. simpl.
    destruct (create_ephemeral_hidden_service ctl _ _ _ _) as [res|e] eqn:Hres; simpl.
    2:{ by destruct e. }
    rewrite content_field_eq.
    destruct (field_of res 0) as [sid|] eqn:Hsid; simpl; [|done].
    intros [= <- <-]. exists ctl, res, sid. simpl.
    split_and!; try done.
    intros id rest -> Hid. f_equal. by eapply service_id_line.
Qed.

Lemma start_onion_host_witness :
  start 8080 (Doubles.manager false true false (Some Doubles.tor) None None None)
  = ((start 8080 (Doubles.manager false true false (Some Doubles.tor) None None None)).1,
     Val "duskgytldkxiuqc6.onion") ∧
  started 8080 (Doubles.manager false true false (Some Doubles.tor) None None None)
    (start 8080 (Doubles.manager false true false (Some Doubles.tor) None None None)).1
    "duskgytldkxiuqc6.onion".
Proof.
  split; [reflexivity|].
  apply (start_onion_host 8080
           (Doubles.manager false true false (Some Doubles.tor) None None None)).
  reflexivity.
Defined.

(** With stealth, on the same Tor: the cookie of the reply ends up in the
    auth string. *)
Example start_stealth_auth_string :
  auth_string
    (self (start 8080 (Doubles.manager true true true (Some Doubles.tor) None None None)).1)
  = Some "HidServAuth duskgytldkxiuqc6.onion vJYg3zqBqlmpEg5uTzgVpw".
Proof. reflexivity. Qed.

(** C10. [start] begins by resetting [auth_string]: what it does is the
    same whatever auth string an earlier call left; whenever it does not
    return a host name (capability error, protocol error, any other
    exception) the auth string is [None] afterwards, and so it is after any
    call without stealth. *)
Theorem start_resets_auth_string port st a :
  start port (with_auth_string a st) = start port st ∧
  ((∀ host, (start port st).2 ≠ Val host) →
     auth_string (self (start port st).1) = None) ∧
  (stealth (self st) = false → auth_string (self (start port st).1) = None).
Proof.
  split_and!.
  - reflexivity.
  - unfold start. unfold_all. simpl.
    repeat (case_match; simpl in *; simplify_eq; try done);
      intros Hnot; by destruct (Hnot _ eq_refl).
  - intros Hst. unfold start. unfold_all. simpl. rewrite Hst. simpl.
    repeat (case_match; simpl in *; simplify_eq; try done).
Qed.

(** *** The stealth probe *)

(** C5. The probe never raises: it always returns, having changed nothing
    of the object but [supports_stealth]. With a controller at hand its
    first call is the creation of the throwaway service (port map [{1: 1}],
    the [onionshare] basic-auth entry, publication not awaited), followed by
    at most one removal. It records [True] exactly when the creation, the
    reading of the service id and the removal all succeeded, and then that
    service was removed once; on any failure it records [False]. *)
Theorem probe_stealth_never_raises st :
  ∃ st',
    probe_stealth st = (st', Val tt) ∧
    self st' = set_supports_stealth (supports_stealth (self st')) (self st) ∧
    (∀ ctl, c (self st) = Some ctl →
       ∃ rest, trace st' = trace st ++ sentinel_create :: rest ∧
               (rest = [] ∨ ∃ sid, rest = [EvRemove sid])) ∧
    (supports_stealth (self st') = true →
       ∃ ctl res sid,
         c (self st) = Some ctl ∧
         create_ephemeral_hidden_service ctl (trace st) {[1 := 1]} sentinel_auth false
           = Ok res ∧
         field_of res 0 = Some sid ∧
         remove_ephemeral_hidden_service ctl (trace st ++ [sentinel_create]) sid = None ∧
         trace st' = trace st ++ [sentinel_create; EvRemove sid]) ∧
    (supports_stealth (self st') = false →
       c (self st) = None ∨
       ∃ ctl, c (self st) = Some ctl ∧
         match create_ephemeral_hidden_service ctl (trace st) {[1 := 1]} sentinel_auth false
         with
         | Raise _ => True
         | Ok res =>
             match field_of res 0 with
             | None => True
             | Some sid =>
                 remove_ephemeral_hidden_service ctl (trace st ++ [sentinel_create]) sid
                 ≠ None
             end
         end).
Proof.
  unfold probe_stealth, sentinel_create, sentinel_auth, field_of.
  unfold_all. simpl.
  destruct (c (self st)) as [ctl|] eqn:Hc; simpl.
  2:{ eexists; split_and!; try done. intros; by left. }
  destruct (create_ephemeral_hidden_service ctl _ _ _ _) as [res|e] eqn:Hres; simpl.
  2:{ eexists; split_and!; try done.
      - intros ? [= <-]. exists []. by split; [|left].
      - intros _. right. exists ctl. by rewrite Hres. }
  destruct (res !! 0%nat) as [line|] eqn:Hline; simpl.
  2:{ eexists; split_and!; try done.
      - intros ? [= <-]. exists []. by split; [|left].
      - intros _. right. exists ctl. by rewrite Hres, Hline. }
  destruct (split_on "=" line.2 !! 1%nat) as [sid|] eqn:Hsid; simpl.
  2:{ eexists; split_and!; try done.
      - intros ? [= <-]. exists []. by split; [|left].
      - intros _. right. exists ctl. rewrite Hres, Hline. simpl. by rewrite Hsid. }
  rewrite Hc. simpl. rewrite <- !app_assoc. simpl.
  destruct (remove_ephemeral_hidden_service ctl _ sid) as [e|] eqn:Hrm; simpl.
  - eexists; split_and!; try done.
    + intros ? [= <-]. exists [EvRemove sid]. split; [done|]. right. by exists sid.
    + intros _. right. exists ctl. rewrite Hres, Hline. simpl. rewrite Hsid.
      split; [done|]. by rewrite Hrm.
  - eexists; split_and!; try done.
    + intros ? [= <-]. exists [EvRemove sid]. split; [done|]. right. by exists sid.
    + intros _. exists ctl, res, sid. rewrite Hline. simpl. by rewrite Hsid.
Qed.

(** *** [cleanup] *)

Ltac signal_step Hp :=
  match goal with
  | |- context [terminate ?p ?h] =>
      let H := fresh in destruct (Hp p eq_refl h) as (H & _ & _); rewrite H; clear H
  | |- context [poll ?p ?h] =>
      let H := fresh in let s := fresh "status" in
      destruct (Hp p eq_refl h) as (_ & [s H] & _); rewrite H
  | |- context [kill ?p ?h] =>
      let H := fresh in destruct (Hp p eq_refl h) as (_ & _ & H); rewrite H; clear H
  end.

Ltac stop_process Hp Hproc :=
  repeat (simpl; rewrite <- ?app_assoc;
          first [ rewrite Hproc
                | match goal with H : poll _ _ = _ |- _ => rewrite H end
                | signal_step Hp
                | match goal with
                  | |- context [py_not ?s] => destruct (py_not s)
                  end ]).

(** What [cleanup] does when the signals go through. *)
Lemma cleanup_run st :
  (∀ p, tor_proc (self st) = Some p → signals_succeed p) →
  cleanup st =
  (mkSt (after_stop (after_removal (self st))) (frame st)
        (trace st ++ removal_events (self st) ++ stop_events (self st) (poll_status st)),
   Val tt).
Proof.
  intros Hp. destruct st as [o fr tr]. simpl in Hp.
  unfold cleanup, poll_status, stop_events.
  unfold removal_events, after_stop, after_removal.
  unfold_all. simpl.
  destruct (truthy (service_id o)) eqn:Htr; simpl.
  - destruct (c o) as [ctl|]; simpl;
      [destruct (remove_ephemeral_hidden_service ctl _ _); simpl|];
      (destruct (tor_proc o) as [p|] eqn:Hproc;
       [ stop_process Hp Hproc; reflexivity
       | simpl; rewrite ?Hproc; simpl; by rewrite ?app_nil_r ]).
  - destruct (tor_proc o) as [p|] eqn:Hproc;
      [ stop_process Hp Hproc; reflexivity
      | simpl; rewrite ?Hproc; simpl; by rewrite ?app_nil_r ].
Qed.

Lemma cleanup_nothing_to_do st :
  truthy (service_id (self st)) = false → tor_proc (self st) = None →
  cleanup st = (st, Val tt).
Proof.
  intros Hsid Hproc. unfold cleanup. unfold_all. simpl.
  rewrite Hsid. simpl. by rewrite Hproc.
Qed.







(** A child that exited with status 0 within the 200 ms is sent the kill
    as well: [not 0] holds in Python. *)
Example cleanup_kills_child_exited_with_0 :
  trace (cleanup (Doubles.manager false true true (Some Doubles.tor)
                    (Some (Doubles.child_exiting 0)) None None)).1
  = [EvTerminate; EvSleep 200; EvPoll; EvKill].
Proof. reflexivity. Qed.

(** *** Automatic discovery *)

(** C1, on the code. No override in the environment, no controller
    anywhere: [__init__] raises [TorErrorAutomatic], but of the three ports
    only 9151 was tried. The [try] encloses the whole [for] loop, so the
    first refusal ends the scan: 9153 and 9051 are never attempted. Two
    socket paths are tried after it: the empty one, then the one under
    [/run/user]. *)
Theorem automatic_discovery_stops_at_first_port :
  (__init__ Doubles.linux_without_tor 0 false (Some Doubles.automatic) None
     Doubles.fresh).2 = Exc TorErrorAutomatic ∧
  trace (__init__ Doubles.linux_without_tor 0 false (Some Doubles.automatic) None
           Doubles.fresh).1
  = [EvFromPort "127.0.0.1" 9151;
     EvFromSocketFile "";
     EvFromSocketFile "/run/user/1000/Tor/control.socket"].
Proof. split; reflexivity. Qed.

(** The same on any host without an override: once port 9151 refuses, no
    other port is tried. *)
Lemma automatic_scan_ends_at_first_refusal w st e port :
  truthy (environ_TOR_CONTROL_PORT w) = false →
  from_port w (trace st) "127.0.0.1" 9151 = Raise e →
  EvFromPort "127.0.0.1" port ∈ trace (init_automatic w st).1 →
  EvFromPort "127.0.0.1" port ∈ trace st ∨ port = 9151.
Proof.
  intros Henv H9151. unfold init_automatic, local_socket_file_path, set_found_tor,
    set_socket_file_path.
  rewrite Henv. cbn [for_each]. unfold_all. simpl. rewrite H9151. simpl.
  repeat (case_match; simpl in *; simplify_eq);
    rewrite <- ?app_assoc; simpl;
    rewrite !elem_of_app, ?elem_of_cons, ?elem_of_nil; naive_solver.
Qed.

(** A system Tor listening on 9051 is therefore not found. *)
Example automatic_misses_tor_on_9051 :
  (__init__ Doubles.linux_with_system_tor 0 false (Some Doubles.automatic) None
     Doubles.fresh).2 = Exc TorErrorAutomatic.
Proof. reflexivity. Qed.

(** *** Manual settings *)

(** C6, on the code. A connection type that is none of [bundled],
    [automatic], [control_port], [socket_file]: [__init__] raises
    [TorErrorSocketFile], a transport error, without having tried any
    connection. The [raise TorErrorInvalidSetting] sits inside the [try]
    whose bare [except] turns every exception into a transport error. *)
Theorem unknown_connection_type_raises_socket_file_error :
  __init__ Doubles.linux_without_tor 0 false
    (Some (Doubles.manual "carrier_pigeon" "no_auth")) None Doubles.fresh
  = (mkSt (mkOnion false None (Doubles.manual "carrier_pigeon" "no_auth")
             "/usr/bin/tor" "/usr/share/tor/geoip" "/usr/share/tor/geoip6"
             None None None None None "" None "" "" false false None)
          (mkLocals false None) [],
     Exc (TorErrorSocketFile "/var/run/tor/control")).
Proof. reflexivity. Qed.

(** The same for every such connection type. *)
Lemma init_manual_unknown_connection_type w st :
  connection_type (settings (self st)) ≠ "control_port" →
  connection_type (settings (self st)) ≠ "socket_file" →
  init_manual w st = (st, Exc (TorErrorSocketFile (socket_file_path (settings (self st))))).
Proof.
  intros H1 H2. unfold init_manual. unfold_all. simpl.
  destruct (String.eqb_spec (connection_type (settings (self st))) "control_port");
    [done|].
  by destruct (String.eqb_spec (connection_type (settings (self st))) "socket_file").
Qed.

(** The other half of C6 holds once the connection is made: an auth type
    that is neither [no_auth] nor [password] raises
    [TorErrorInvalidSetting]. *)
Lemma init_manual_unknown_auth_type w st ctl :
  (connection_type (settings (self st)) = "control_port" ∧
   from_port w (trace st) (control_port_address (settings (self st)))
     (control_port_port (settings (self st))) = Ok ctl)
  ∨
  (connection_type (settings (self st)) = "socket_file" ∧
   from_socket_file w (trace st) (socket_file_path (settings (self st))) = Ok ctl) →
  auth_type (settings (self st)) ≠ "no_auth" →
  auth_type (settings (self st)) ≠ "password" →
  (init_manual w st).2 = Exc TorErrorInvalidSetting.
Proof.
  intros Hconn H1 H2. unfold init_manual. unfold_all. simpl.
  destruct (String.eqb_spec (auth_type (settings (self st))) "no_auth"); [done|].
  destruct (String.eqb_spec (auth_type (settings (self st))) "password"); [done|].
  destruct Hconn as [[Hct Hok]|[Hct Hok]]; rewrite Hct; simpl; by rewrite Hok.
Qed.

(** *** Port allocation *)

(** A port that [_get_available_port] returns is the number it last
    drew, and the probe socket could be bound to it; the object is left as
    it was: no record is kept of the ports handed out. *)
Lemma allocation w fuel st st' port :
  (∀ h, 1000 ≤ randint w h 1000 65535 ≤ 65535) →
  _get_available_port w fuel st = (st', Val port) →
  1000 ≤ port ≤ 65535 ∧
  self st' = self st ∧
  ∃ earlier,
    trace st' = trace st ++ earlier
                  ++ [EvRandint 1000 65535 port; EvBind "127.0.0.1" port] ∧
    bind w (trace st ++ earlier ++ [EvRandint 1000 65535 port]) "127.0.0.1" port = None.
Proof.
  intros Hr. revert st. induction fuel as [|fuel IH]; intros st; simpl.
  { unfold out_of_fuel. done. }
  unfold_all. simpl.
  set (drawn := randint w (trace st) 1000 65535).
  destruct (bind w _ "127.0.0.1" drawn) as [e|] eqn:Hb; simpl.
  - destruct e; simpl; try done.
    intros H. apply IH in H as ([Hlo Hhi] & Hself & earlier & Htr & Hbind). simpl in *.
    split_and!; try done.
    exists ([EvRandint 1000 65535 drawn; EvBind "127.0.0.1" drawn] ++ earlier).
    rewrite <- ?app_assoc in *. simpl in *. by rewrite <- ?app_assoc in *.
  - intros [= <- <-]. simpl. split_and!; try done.
    + apply Hr.
    + apply Hr.
    + exists []. simpl. rewrite <- ?app_assoc. simpl. done.
Qed.

(** The allocation returns as soon as a drawn port can be bound. *)
Lemma allocation_returns w fuel st :
  bind w (trace st ++ [EvRandint 1000 65535 (randint w (trace st) 1000 65535)])
    "127.0.0.1" (randint w (trace st) 1000 65535) = None →
  ∃ st', _get_available_port w (S fuel) st
         = (st', Val (randint w (trace st) 1000 65535)).
Proof.
  intros Hb. simpl. unfold_all. simpl. rewrite Hb. simpl. by eexists.
Qed.

Lemma bound_in_app w port h h' : bound_in w port h → bound_in w port (h ++ h').
Proof.
  intros (before & after & -> & Hb). exists before, (after ++ h').
  by rewrite <- app_assoc.
Qed.

Lemma allocation_bound w fuel st st' port :
  (∀ h, 1000 ≤ randint w h 1000 65535 ≤ 65535) →
  _get_available_port w fuel st = (st', Val port) →
  1000 ≤ port ≤ 65535 ∧ self st' = self st ∧ bound_in w port (trace st') ∧
  ∃ added, trace st' = trace st ++ added.
Proof.
  intros Hr H. apply allocation in H as ([? ?] & Hself & earlier & Htr & Hb); [|done].
  split_and!; try done.
  - unfold bound_in. exists (trace st ++ earlier ++ [EvRandint 1000 65535 port]), [].
    split; [|done]. rewrite Htr, <- ?app_assoc. simpl. by rewrite <- ?app_assoc.
  - by eexists.
Qed.

(** What a computation keeps, from what its parts keep. *)
Section Keeps.

Context (P : St → Prop).
Hypothesis P_log : ∀ st e, P st → P (mkSt (self st) (frame st) (trace st ++ [e])).

Lemma keeps_ret {A} (a : A) : keeps P (mret a).
Proof. by intros st. Qed.
Lemma keeps_raise {A} e : keeps P (@raise A e).
Proof. by intros st. Qed.
Lemma keeps_out_of_fuel {A} : keeps P (@out_of_fuel A).
Proof. by intros st. Qed.
Lemma keeps_bind {A B} (m : M A) (k : A → M B) :
  keeps P m → (∀ a, keeps P (k a)) → keeps P (m ≫= k).
Proof.
  intros Hm Hk st HP. specialize (Hm st HP).
  unfold mbind, M_bind, bind_. destruct (m st) as [st1 [a| |]]; simpl in *; try done.
  by apply Hk.
Qed.
Lemma keeps_try_except {A} (m : M A) h :
  keeps P m → (∀ e, keeps P (h e)) → keeps P (try_except m h).
Proof.
  intros Hm Hh st HP. specialize (Hm st HP).
  unfold try_except. destruct (m st) as [st1 [a|e|]]; simpl in *; try done.
  by apply Hh.
Qed.
Lemma keeps_dispatch {A} (clauses : list (exn_class * M A)) e :
  Forall (λ kh, keeps P kh.2) clauses → keeps P (dispatch clauses e).
Proof.
  induction 1 as [|[k h] l Hh Hl IH]; simpl; [apply keeps_raise|].
  by destruct (isinstance e k).
Qed.
Lemma keeps_try_except_on {A} (m : M A) clauses :
  keeps P m → Forall (λ kh, keeps P kh.2) clauses → keeps P (try_except_on m clauses).
Proof. intros. apply keeps_try_except; [done|]. intros e. by apply keeps_dispatch. Qed.
Lemma keeps_get_self : keeps P get_self.
Proof. by intros st. Qed.
Lemma keeps_get_trace : keeps P get_trace.
Proof. by intros st. Qed.
Lemma keeps_get_frame : keeps P get_frame.
Proof. by intros st. Qed.
Lemma keeps_log e : keeps P (log e).
Proof. intros st HP. by apply P_log. Qed.
Lemma keeps_modify f :
  (∀ st, P st → P (mkSt (f (self st)) (frame st) (trace st))) → keeps P (modify f).
Proof. intros Hf st HP. by apply Hf. Qed.
Lemma keeps_of_result {A} (r : result A) : keeps P (of_result r).
Proof. destruct r; by intros st. Qed.
Lemma keeps_of_status r : keeps P (of_status r).
Proof. destruct r; by intros st. Qed.
Lemma keeps_of_option {A} e (o : option A) : keeps P (of_option e o).
Proof. destruct o; by intros st. Qed.
Lemma keeps_call {A} ev (f : history → result A) : keeps P (call ev f).
Proof.
  unfold call. apply keeps_bind; [apply keeps_get_trace|]. intros h.
  apply keeps_bind; [apply keeps_log|]. intros _. apply keeps_of_result.
Qed.
Lemma keeps_call_ ev f : keeps P (call_ ev f).
Proof.
  unfold call_. apply keeps_bind; [apply keeps_get_trace|]. intros h.
  apply keeps_bind; [apply keeps_log|]. intros _. apply keeps_of_status.
Qed.

End Keeps.

Create HintDb keeps.
#[local] Hint Resolve keeps_ret keeps_raise keeps_out_of_fuel keeps_get_self
  keeps_get_trace keeps_get_frame keeps_log keeps_of_result keeps_of_status
  keeps_of_option keeps_call keeps_call_ : keeps.

Ltac keeps_step :=
  lazymatch goal with
  | |- keeps _ (_ ≫= _) => apply keeps_bind; [|intros ?]
  | |- keeps _ (try_except _ _) => apply keeps_try_except; [|intros ?]
  | |- keeps _ (try_except_on _ _) =>
      apply keeps_try_except_on; [|repeat constructor; simpl]
  | |- keeps _ (if ?b then _ else _) => destruct b
  | |- keeps _ (match ?x with _ => _ end) => destruct x
  | |- keeps _ (modify _) => apply keeps_modify; intros ? ?; assumption
  | |- keeps _ _ => solve [eauto with keeps]
  end.
Ltac keeps_tac := cbv zeta; repeat keeps_step.
Ltac unfold_calls :=
  unfold c_create_ephemeral_hidden_service, c_remove_ephemeral_hidden_service,
    c_authenticate, c_get_version, c_get_info,
    proc_terminate, proc_poll, proc_kill, the_controller, the_process,
    controller_from_port, controller_from_socket_file, time_now, random_randint,
    sock_bind, sleep, print, content_field, index.

Lemma bind_ret {A B} (a : A) (k : A → M B) st : (mret a ≫= k) st = k a st.
Proof. reflexivity. Qed.
Lemma bind_modify {B} g (k : unit → M B) st :
  (modify g ≫= k) st = k tt (mkSt (g (self st)) (frame st) (trace st)).
Proof. reflexivity. Qed.

Lemma bind_val {A B} (m : M A) (k : A → M B) st st' b :
  (m ≫= k) st = (st', Val b) →
  ∃ a st1, m st = (st1, Val a) ∧ k a st1 = (st', Val b).
Proof.
  unfold mbind, M_bind, bind_. destruct (m st) as [st1 [a|e|]]; try done.
  intros H. by exists a, st1.
Qed.

(** Once the two ports are allocated, nothing in the rest of [__init__]
    touches them. *)
Section Session.

Context (w : World) (control socks : Z).

Lemma session_log st e :
  session w control socks st →
  session w control socks (mkSt (self st) (frame st) (trace st ++ [e])).
Proof. intros (? & ? & ? & ?). split_and!; try done; by apply bound_in_app. Qed.

#[local] Hint Resolve session_log : keeps.

Lemma keeps_bootstrap_loop f start_ts fuel :
  keeps (session w control socks) (bootstrap_loop w f start_ts fuel).
Proof.
  induction fuel as [|fuel IH]; simpl; [apply keeps_out_of_fuel|].
  unfold_calls. keeps_tac.
Qed.

Lemma keeps_bundled_launch fuel f dir t :
  keeps (session w control socks) (bundled_launch w fuel f dir t).
Proof.
  unfold bundled_launch. unfold_calls. pose proof (keeps_bootstrap_loop f).
  keeps_tac.
Qed.

Lemma keeps_probe_stealth : keeps (session w control socks) probe_stealth.
Proof. unfold probe_stealth. unfold_calls. keeps_tac. Qed.

End Session.

Section Windows.

Context (w : World).
Hypothesis windows : platform_system w = "Windows".
Hypothesis randint_in_range : ∀ h, 1000 ≤ randint w h 1000 65535 ≤ 65535.

Lemma bundled_transport_windows fuel dir st st' t :
  bundled_transport w fuel dir st = (st', Val t) →
  ∃ control socks,
    1000 ≤ control ≤ 65535 ∧ 1000 ≤ socks ≤ 65535 ∧ session w control socks st'.
Proof.
  unfold bundled_transport. rewrite windows.
  change (String.eqb "Windows" "Windows") with true. cbv iota.
  intros H.
  apply bind_val in H as (t0 & sa & Hread & H).
  apply bind_val in H as (control & sb & Hc & H).
  apply allocation_bound in Hc as (Hcr & Hcs & Hcb & addc & Hct); [|done].
  apply bind_val in H as ([] & s1 & [= <-] & H).
  apply bind_val in H as ([] & s2 & [= <-] & H).
  apply bind_val in H as ([] & s3 & [= <-] & H).
  apply bind_val in H as (socks & sc & Hs & H).
  apply allocation_bound in Hs as (Hsr & Hss & Hsb & adds & Hst); [|done].
  apply bind_val in H as ([] & s4 & [= <-] & H).
  apply bind_val in H as ([] & s5 & [= <-] & H).
  injection H as <- <-.
  exists control, socks. split_and!; try lia.
  unfold session. simpl in *. split_and!; try done.
  - by rewrite Hss.
  - rewrite Hst. by apply bound_in_app.
Qed.


End Windows.



(** *** The bootstrap monitor *)

Lemma slept_app h h' : slept (h ++ h') = slept h + slept h'.
Proof. induction h as [|e h IH]; simpl; [done|]. destruct e; lia. Qed.

Lemma polls_app h h' : polls (h ++ h') = polls h ++ polls h'.
Proof. apply omap_app. Qed.
Lemma clock_readings_app h h' :
  clock_readings (h ++ h') = clock_readings h ++ clock_readings h'.
Proof. apply omap_app. Qed.
Lemma terminations_app h h' :
  terminations (h ++ h') = (terminations h + terminations h')%nat.
Proof. unfold terminations. by rewrite omap_app, length_app. Qed.

Lemma append_append evs evs' st : append evs' (append evs st) = append (evs ++ evs') st.
Proof. unfold append. simpl. by rewrite app_assoc. Qed.

Section Bootstrap.

Context (w : World) (f : option callback) (start_ts : float).
Context (ctl : Controller) (p : Popen).

(** The progress callback returns, and so does [terminate()]. *)
Hypothesis callback_returns : ∀ g h s, f = Some g → g h s = None.
Hypothesis terminate_returns : ∀ h, terminate p h = None.

Lemma slept_status pr su : slept (status_events f pr su) = 0.
Proof. unfold status_events. by destruct f. Qed.
Lemma polls_status pr su : polls (status_events f pr su) = [].
Proof. unfold status_events. by destruct f. Qed.
Lemma clock_readings_status pr su : clock_readings (status_events f pr su) = [].
Proof. unfold status_events. by destruct f. Qed.
Lemma terminations_status pr su : terminations (status_events f pr su) = 0%nat.
Proof. unfold status_events. by destruct f. Qed.

(** One round of the loop on a reply that can be read. *)
Lemma bootstrap_step fuel st res pr su :
  c (self st) = Some ctl →
  tor_proc (self st) = Some p →
  get_info ctl (trace st) "status/bootstrap-phase" = Ok res →
  progress_of w res = Some pr →
  summary_of w res = Some su →
  let polled := EvGetInfo "status/bootstrap-phase" (Ok res) :: status_events f pr su in
  let now := time_time w (trace st ++ polled ++ [EvSleep 200]) in
  bootstrap_loop w f start_ts (S fuel) st =
  if String.eqb su "Done" then (append (polled ++ [EvPrint (Line "")]) st, Val tt)
  else if float_ltb (float_of_Z 45) (float_sub now start_ts) then
    (append (polled ++ [EvSleep 200; EvTime now; EvPrint (Line ""); EvTerminate]) st,
     Exc BundledTorTimeout)
  else bootstrap_loop w f start_ts fuel (append (polled ++ [EvSleep 200; EvTime now]) st).
Proof.
  intros Hc Hp Hres Hpr Hsu. unfold progress_of, summary_of, reply_field in *.
  destruct (shlex_split w res) as [parts|] eqn:Hparts; simpl in *; [|done].
  destruct (parts !! 2%nat) as [part2|] eqn:H2; simpl in *; [|done].
  destruct (parts !! 4%nat) as [part4|] eqn:H4; simpl in *; [|done].
  destruct st as [o fr tr]. simpl in *. unfold append, status_events. simpl.
  unfold_all. simpl. rewrite Hc. simpl. rewrite Hres. simpl. rewrite Hparts. simpl.
  rewrite H2. simpl. rewrite Hpr. simpl. rewrite H4. simpl. rewrite Hsu. simpl.
  destruct f as [g|]; simpl.
  - rewrite (callback_returns g) by done. simpl.
    destruct (String.eqb su "Done"); simpl; rewrite <- ?app_assoc; simpl; [done|].
    destruct (float_ltb _ _); simpl; rewrite <- ?app_assoc; simpl; [|done].
    rewrite Hp. simpl. rewrite terminate_returns. simpl. by rewrite <- ?app_assoc.
  - destruct (String.eqb su "Done"); simpl; rewrite <- ?app_assoc; simpl; [done|].
    destruct (float_ltb _ _); simpl; rewrite <- ?app_assoc; simpl; [|done].
    rewrite Hp. simpl. rewrite terminate_returns. simpl. by rewrite <- ?app_assoc.
Qed.

Lemma polls_round res pr su : polls (round_events f res pr su) = [Ok res].
Proof.
  unfold round_events. change (polls (?e :: ?l)) with (Ok res :: polls l).
  by rewrite polls_status.
Qed.
Lemma clock_readings_round res pr su : clock_readings (round_events f res pr su) = [].
Proof.
  unfold round_events. change (clock_readings (?e :: ?l)) with (clock_readings l).
  by rewrite clock_readings_status.
Qed.
Lemma terminations_round res pr su : terminations (round_events f res pr su) = 0%nat.
Proof.
  unfold round_events. change (terminations (?e :: ?l)) with (terminations l).
  by rewrite terminations_status.
Qed.
Lemma slept_round res pr su : slept (round_events f res pr su) = 0.
Proof.
  unfold round_events. change (slept (?e :: ?l)) with (slept l). by rewrite slept_status.
Qed.

(** What the rounds against the world amount to: the reading of the
    claim. *)
Lemma rounds_monitored h added r :
  rounds w f ctl start_ts h added r → monitored w start_ts added r.
Proof.
  induction 1 as [h res pr Hres Hpr Hsu
                 |h res pr su now Hres Hpr Hsu Hnd Hnow Hlate
                 |h res pr su now rest r Hres Hpr Hsu Hnd Hnow Hearly Hrest IH].
  - left. split_and!; try done.
    + exists [], res. by rewrite polls_app, polls_round.
    + by rewrite terminations_app, terminations_round.
    + rewrite clock_readings_app, clock_readings_round. constructor.
  - right. split_and!; try done.
    + rewrite polls_app, polls_round. simpl. constructor; [|done]. by exists res, su.
    + by rewrite terminations_app, terminations_round.
    + exists [], now. by rewrite clock_readings_app, clock_readings_round.
  - assert (Hnot : not_done w (Ok res)) by (by exists res, su).
    destruct IH as [(-> & (earlier & last & Hp1 & Hp2 & Hp3) & Ht & Hr)
                   |(-> & Hp1 & Ht & earlier & late & Hr1 & Hr2 & Hr3)].
    + left. split_and!; try done.
      * exists (Ok res :: earlier), last.
        rewrite !polls_app, polls_round, Hp1. simpl. split_and!; try done.
        by constructor.
      * rewrite !terminations_app, terminations_round, Ht. done.
      * rewrite !clock_readings_app, clock_readings_round. simpl. by constructor.
    + right. split_and!; try done.
      * rewrite !polls_app, polls_round. simpl. by constructor.
      * rewrite !terminations_app, terminations_round, Ht. done.
      * exists (now :: earlier), late.
        rewrite !clock_readings_app, clock_readings_round, Hr1. simpl.
        split_and!; try done. by constructor.
Qed.

(** Every reply to [status/bootstrap-phase] can be read. [start_ts] was
    read at [h0], and once more than 45 s have been slept since, the clock
    shows it: the test of line 217 holds. *)
Context (h0 : history).
Hypothesis replies_well_formed :
  ∀ h, ∃ res pr su,
    get_info ctl h "status/bootstrap-phase" = Ok res ∧
    progress_of w res = Some pr ∧ summary_of w res = Some su.
Hypothesis clock_advances :
  ∀ h', 45000 < slept h' → past_the_cap start_ts (time_time w (h0 ++ h')) = true.

(** The loop entered with [h1] recorded since [start_ts] was read: every
    round sleeps 200 ms, so the rounds left are bounded by the time left. *)
Lemma bootstrap_run fuel :
  ∀ st h1,
    trace st = h0 ++ h1 →
    c (self st) = Some ctl →
    tor_proc (self st) = Some p →
    (1 ≤ fuel)%nat →
    45000 < 200 * Z.of_nat fuel + slept h1 →
    ∃ added r,
      bootstrap_loop w f start_ts fuel st = (append added st, r) ∧
      rounds w f ctl start_ts (trace st) added r.
Proof.
  induction fuel as [|fuel IH]; intros st h1 Htr Hc Hp Hfuel Hbudget; [lia|].
  destruct (replies_well_formed (trace st)) as (res & pr & su & Hres & Hpr & Hsu).
  rewrite (bootstrap_step fuel st res pr su Hc Hp Hres Hpr Hsu). cbv zeta.
  change (EvGetInfo "status/bootstrap-phase" (Ok res) :: status_events f pr su)
    with (round_events f res pr su).
  set (now := time_time w (trace st ++ round_events f res pr su ++ [EvSleep 200])).
  destruct (String.eqb_spec su "Done") as [->|Hsu'].
  { eexists _, _. split; [done|]. by apply rounds_done. }
  change (float_ltb (float_of_Z 45) (float_sub now start_ts))
    with (past_the_cap start_ts now).
  destruct (past_the_cap start_ts now) eqn:Hcap.
  { eexists _, _. split; [done|]. by eapply rounds_timeout. }
  assert (Hearly : slept h1 + 200 ≤ 45000).
  { destruct (Z_le_gt_dec (slept h1 + 200) 45000) as [|Hgt]; [done|].
    assert (Hlate : past_the_cap start_ts
                      (time_time w (h0 ++ h1 ++ round_events f res pr su ++ [EvSleep 200]))
                    = true).
    { apply clock_advances. rewrite !slept_app, slept_round. simpl. lia. }
    rewrite app_assoc, <- Htr in Hlate. fold now in Hlate. congruence. }
  destruct (IH (append (round_events f res pr su ++ [EvSleep 200; EvTime now]) st)
              (h1 ++ round_events f res pr su ++ [EvSleep 200; EvTime now]))
    as (added & r & Hrun & Hrounds); try done.
  { simpl. by rewrite Htr, <- app_assoc. }
  { lia. }
  { rewrite !slept_app, slept_round. simpl. lia. }
  rewrite Hrun, append_append. eexists _, r. split.
  { by rewrite <- app_assoc. }
  by eapply rounds_next.
Qed.

End Bootstrap.

Lemma wall_clock_past_the_cap h :
  45000 < slept h →
  past_the_cap (float_of_Z 0) (time_time Cases.linux_with_wall_clock ([] ++ h)) = true.
Proof.
  intros Hh. simpl. unfold Cases.wall_clock.
  destruct (Z.ltb_spec 45000 (slept h)); [reflexivity|lia].
Qed.

(** C8, as the code has it. Whatever the replies to
    [status/bootstrap-phase] are, as long as each of them can be read, with
    a progress callback and a [terminate()] that return and a clock that
    shows more than 45 s of sleep since [start_ts] was read (at [h0]) as
    more than 45 s elapsed, 226 rounds are enough for the loop to end, and
    what it does is decided round by round by the controller and the clock
    ([rounds]): every round starts with a poll of the controller, and its
    answer at that point is the one acted on. It ends in one of two ways.
    Either it returns at a poll whose summary is [Done]: that poll is the
    first with this summary and the last one made, the clock was not read
    after it, and the process was not terminated. Or it raises
    [BundledTorTimeout]: no poll had the summary [Done], the clock reading
    before the raise is the first on which [time.time() - start_ts > 45]
    holds, and the process was terminated exactly once. *)
Theorem bootstrap_monitor w f start_ts ctl p fuel st h0 h1 :
  (∀ g h s, f = Some g → g h s = None) →
  (∀ h, terminate p h = None) →
  (∀ h, ∃ res pr su,
     get_info ctl h "status/bootstrap-phase" = Ok res ∧
     progress_of w res = Some pr ∧ summary_of w res = Some su) →
  (∀ h', 45000 < slept h' → past_the_cap start_ts (time_time w (h0 ++ h')) = true) →
  trace st = h0 ++ h1 →
  0 ≤ slept h1 →
  c (self st) = Some ctl →
  tor_proc (self st) = Some p →
  (226 ≤ fuel)%nat →
  ∃ added r,
    bootstrap_loop w f start_ts fuel st = (append added st, r) ∧
    rounds w f ctl start_ts (trace st) added r ∧
    monitored w start_ts added r.
Proof.
  intros Hcb Hterm Hreplies Hclock Htr Hslept Hc Hp Hfuel.
  destruct (bootstrap_run w f start_ts ctl p Hcb Hterm h0 Hreplies Hclock fuel st h1)
    as (added & r & Hrun & Hrounds); try done; try lia.
  exists added, r. split_and!; try done. by eapply rounds_monitored.
Qed.

Lemma bootstrap_monitor_witness :
  (∃ added r,
     bootstrap_loop Cases.linux_with_wall_clock None (float_of_Z 0) 226
       (Doubles.manager false false false (Some (Cases.ready_after 2))
          (Some Doubles.child_hanging) None None)
     = (append added
          (Doubles.manager false false false (Some (Cases.ready_after 2))
             (Some Doubles.child_hanging) None None), r) ∧
     rounds Cases.linux_with_wall_clock None (Cases.ready_after 2) (float_of_Z 0) [] added r ∧
     monitored Cases.linux_with_wall_clock (float_of_Z 0) added r) ∧
  (∃ added r,
     bootstrap_loop Cases.linux_with_wall_clock None (float_of_Z 0) 226
       (Doubles.manager false false false (Some Doubles.stuck_tor)
          (Some Doubles.child_hanging) None None)
     = (append added
          (Doubles.manager false false false (Some Doubles.stuck_tor)
             (Some Doubles.child_hanging) None None), r) ∧
     rounds Cases.linux_with_wall_clock None Doubles.stuck_tor (float_of_Z 0) [] added r ∧
     monitored Cases.linux_with_wall_clock (float_of_Z 0) added r).
Proof.
  split.
  - apply (bootstrap_monitor Cases.linux_with_wall_clock None (float_of_Z 0) (Cases.ready_after 2)
             Doubles.child_hanging 226
             (Doubles.manager false false false (Some (Cases.ready_after 2))
                (Some Doubles.child_hanging) None None) [] []).
    + intros g h s Hg. discriminate Hg.
    + intros h. reflexivity.
    + intros h. unfold Cases.ready_after. simpl.
      destruct (_ <? _)%nat; eexists _, _, _; split_and!; reflexivity.
    + intros h' Hh'. apply wall_clock_past_the_cap, Hh'.
    + reflexivity.
    + simpl. lia.
    + reflexivity.
    + reflexivity.
    + lia.
  - apply (bootstrap_monitor Cases.linux_with_wall_clock None (float_of_Z 0) Doubles.stuck_tor
             Doubles.child_hanging 226
             (Doubles.manager false false false (Some Doubles.stuck_tor)
                (Some Doubles.child_hanging) None None) [] []).
    + intros g h s Hg. discriminate Hg.
    + intros h. reflexivity.
    + intros h. eexists _, "50", "Loading relay descriptors". split_and!; reflexivity.
    + intros h' Hh'. apply wall_clock_past_the_cap, Hh'.
    + reflexivity.
    + simpl. lia.
    + reflexivity.
    + reflexivity.
    + lia.
Defined.

(** C8, as stated, fails: a reply that cannot be read. On a controller
    that answers [250 OK] the loop ends at its first poll in [IndexError]:
    it neither returns nor raises [BundledTorTimeout], and the process is
    not terminated. *)
Lemma bootstrap_monitor_unreadable_reply :
  (bootstrap_loop Doubles.linux_without_tor None (float_of_Z 0) 226
     (Doubles.manager false false false (Some (Cases.answering "250 OK" []))
        (Some Doubles.child_hanging) None None)).2 = Exc IndexError ∧
  trace (bootstrap_loop Doubles.linux_without_tor None (float_of_Z 0) 226
           (Doubles.manager false false false (Some (Cases.answering "250 OK" []))
              (Some Doubles.child_hanging) None None)).1
  = [EvGetInfo "status/bootstrap-phase" (Ok "250 OK")].
Proof. split; reflexivity. Qed.

(** On a Tor that reports [Done] at the first poll the loop returns after
    that poll. *)
Example bootstrap_done_at_first_poll :
  bootstrap_loop Doubles.linux_without_tor None (float_of_Z 0) 226
    (Doubles.manager false false false (Some Doubles.tor)
       (Some Doubles.child_hanging) None None)
  = (append
       [EvGetInfo "status/bootstrap-phase"
          (Ok ("NOTICE BOOTSTRAP PROGRESS=100 TAG=done SUMMARY=" +:+ Doubles.quoted "Done"));
        EvPrint (Msg "connecting_to_tor" ["100"; "Done"]);
        EvPrint (Line "")]
       (Doubles.manager false false false (Some Doubles.tor)
          (Some Doubles.child_hanging) None None),
     Val tt).
Proof. reflexivity. Qed.

(** On a Tor that reports [Done] at its third poll the loop polls three
    times and reads the clock twice. *)
Example bootstrap_done_at_third_poll :
  (bootstrap_loop Doubles.linux_without_tor None (float_of_Z 0) 226
     (Doubles.manager false false false (Some (Cases.ready_after 2))
        (Some Doubles.child_hanging) None None)).2 = Val tt ∧
  List.length
    (polls (trace (bootstrap_loop Doubles.linux_without_tor None (float_of_Z 0) 226
                     (Doubles.manager false false false (Some (Cases.ready_after 2))
                        (Some Doubles.child_hanging) None None)).1)) = 3%nat ∧
  clock_readings
    (trace (bootstrap_loop Doubles.linux_without_tor None (float_of_Z 0) 226
              (Doubles.manager false false false (Some (Cases.ready_after 2))
                 (Some Doubles.child_hanging) None None)).1)
  = [Doubles.seconds 200; Doubles.seconds 400] ∧
  terminations
    (trace (bootstrap_loop Doubles.linux_without_tor None (float_of_Z 0) 226
              (Doubles.manager false false false (Some (Cases.ready_after 2))
                 (Some Doubles.child_hanging) None None)).1) = 0%nat.
Proof. vm_compute. done. Qed.

(** On a Tor stuck at 50%, with a clock that advances by exactly the
    time slept and the loop entered at [start_ts], the loop polls 226 times
    and raises at 45.2 seconds: the reading of 45.0 seconds is not past the
    cap. *)
Example bootstrap_times_out :
  let run := bootstrap_loop Doubles.linux_without_tor None (float_of_Z 0) 226
               (Doubles.manager false false false (Some Doubles.stuck_tor)
                  (Some Doubles.child_hanging) None None) in
  run.2 = Exc BundledTorTimeout ∧
  List.length (polls (trace run.1)) = 226%nat ∧
  terminations (trace run.1) = 1%nat ∧
  last (clock_readings (trace run.1)) = Some (Doubles.seconds 45200).
Proof. vm_compute. done. Qed.

(** The test is the interpreter's: between the floats 19.016 and 64.016
    the difference is [0x1.6800000000001p+5], more than 45, as in Python;
    between 0.0 and 45.0 it is 45. *)
Example past_the_cap_in_binary64 :
  float_sub (Doubles.seconds 64016) (Doubles.seconds 19016)
  = S754_finite false 6333186975989761 (-47) ∧
  past_the_cap (Doubles.seconds 19016) (Doubles.seconds 64016) = true ∧
  past_the_cap (float_of_Z 0) (float_of_Z 45) = false.
Proof. vm_compute. done. Qed.

(** A [terminate()] that raises: the loop ends in that exception instead
    of [BundledTorTimeout]. *)
Example bootstrap_terminate_raises :
  (bootstrap_loop Doubles.linux_without_tor None (float_of_Z 0) 226
     (Doubles.manager false false false (Some Doubles.stuck_tor)
        (Some Doubles.child_gone) None None)).2 = Exc OSError.
Proof. vm_compute. reflexivity. Qed.

(** ** Further properties of [start] and [cleanup] *)

Lemma removals_app h h' : removals (h ++ h') = removals h ++ removals h'.
Proof. apply omap_app. Qed.
Lemma creations_app h h' : creations (h ++ h') = creations h ++ creations h'.
Proof. apply omap_app. Qed.

(** [start port], once its guards let it through and a controller is at
    hand, by what the controller answers. *)
Lemma start_run port st ctl :
  start_allowed (self st) →
  c (self st) = Some ctl →
  start port st =
  let st1 := mkSt (set_auth_string None (self st)) (frame st)
               (trace st ++ start_prints port ++ [start_create port (self st)]) in
  match start_answer port st ctl with
  | Raise e => (st1, Exc (if isinstance e ClsProtocolError then TorErrorProtocolError else e))
  | Ok res =>
      match field_of res 0 with
      | None => (st1, Exc IndexError)
      | Some sid =>
          let st2 := mkSt (set_service_id (Some sid) (self st1)) (frame st) (trace st1) in
          if stealth (self st) then
            match cookie_of res with
            | None => (st2, Exc IndexError)
            | Some cookie =>
                (mkSt (set_auth_string
                         (Some ("HidServAuth " +:+ (sid +:+ ".onion") +:+ " " +:+ cookie))
                         (self st2)) (frame st) (trace st1),
                 Val (sid +:+ ".onion"))
            end
          else (st2, Val (sid +:+ ".onion"))
      end
  end.
Proof.
  intros [Heph Hst] Hc. unfold start, start_answer, start_create, start_prints, sentinel_auth.
  unfold_m. simpl. rewrite Heph. simpl.
  destruct (stealth (self st)) eqn:Es; simpl.
  - rewrite Hst by done. simpl. rewrite Hc. simpl. rewrite <- !app_assoc. simpl.
    destruct (create_ephemeral_hidden_service ctl _ _ _ _) as [res|e]; simpl.
    2:{ by destruct e. }
    rewrite content_field_eq. destruct (field_of res 0) as [sid|]; simpl; [|done].
    rewrite content_field_eq. unfold cookie_of.
    destruct (field_of res 2) as [fld|]; simpl; [|done].
    unfold index. unfold_m. by destruct (split_on ":" fld !! 1%nat).
  - rewrite Hc. simpl. rewrite <- !app_assoc. simpl.
    destruct (create_ephemeral_hidden_service ctl _ _ _ _) as [res|e]; simpl.
    2:{ by destruct e. }
    rewrite content_field_eq. by destruct (field_of res 0) as [sid|].
Qed.

(** X18. When the creation of the service raises, [start] raises
    [TorErrorProtocolError] for stem's [ProtocolError] and the exception
    itself for any other; one creation was asked for, the recorded service
    id is the one from before the call, the auth string is [None]. *)
Theorem start_create_failure port st ctl e :
  start_allowed (self st) →
  c (self st) = Some ctl →
  start_answer port st ctl = Raise e →
  ∃ st',
    start port st
    = (st', Exc (if isinstance e ClsProtocolError then TorErrorProtocolError else e)) ∧
    service_id (self st') = service_id (self st) ∧
    auth_string (self st') = None ∧
    trace st' = trace st ++ start_prints port ++ [start_create port (self st)].
Proof.
  intros Ha Hc He. rewrite (start_run port st ctl Ha Hc). cbv zeta. rewrite He.
  by eexists.
Qed.

Lemma start_create_failure_witness :
  ∃ st',
    start 8080 (Doubles.manager false true false (Some Doubles.stuck_tor) None None None)
    = (st', Exc TorErrorProtocolError) ∧
    service_id (self st') = None ∧
    auth_string (self st') = None ∧
    trace st' = start_prints 8080 ++ [EvCreate {[80 := 8080]} None true].
Proof.
  apply (start_create_failure 8080
           (Doubles.manager false true false (Some Doubles.stuck_tor) None None None)
           Doubles.stuck_tor ProtocolError).
  - split; [reflexivity|]. intros H. discriminate H.
  - reflexivity.
  - reflexivity.
Defined.

(** X19. When the reply to the creation carries no service id, [start]
    raises [IndexError] after the service was created: the creation is in the
    history, but the recorded service id is the one from before the call, so
    a later [cleanup] does not ask for the removal of the new service. *)
Theorem start_reply_without_service_id port st ctl res :
  start_allowed (self st) →
  c (self st) = Some ctl →
  start_answer port st ctl = Ok res →
  field_of res 0 = None →
  ∃ st',
    start port st = (st', Exc IndexError) ∧
    service_id (self st') = service_id (self st) ∧
    creations (trace st') = creations (trace st) ++ [start_create port (self st)].
Proof.
  intros Ha Hc Hr Hf. rewrite (start_run port st ctl Ha Hc). cbv zeta. rewrite Hr, Hf.
  eexists. split_and!; try done. simpl.
  unfold creations. rewrite !omap_app. simpl. done.
Qed.

Lemma start_reply_without_service_id_witness :
  ∃ st',
    start 8080 (Doubles.manager false true false
                  (Some (Cases.answering "" [("250", " ", "OK")])) None None None)
    = (st', Exc IndexError) ∧
    service_id (self st') = None ∧
    creations (trace st') = [EvCreate {[80 := 8080]} None true].
Proof.
  apply (start_reply_without_service_id 8080
           (Doubles.manager false true false
              (Some (Cases.answering "" [("250", " ", "OK")])) None None None)
           (Cases.answering "" [("250", " ", "OK")]) [("250", " ", "OK")]).
  - split; [reflexivity|]. intros H. discriminate H.
  - reflexivity.
  - reflexivity.
  - reflexivity.
Defined.

(** X20. With stealth, when the reply carries a service id but no
    cookie, [start] raises [IndexError] with the service id already
    recorded (a later [cleanup] asks for its removal) and the auth string
    [None]. *)
Theorem start_stealth_reply_without_cookie port st ctl res sid :
  start_allowed (self st) →
  stealth (self st) = true →
  c (self st) = Some ctl →
  start_answer port st ctl = Ok res →
  field_of res 0 = Some sid →
  cookie_of res = None →
  ∃ st',
    start port st = (st', Exc IndexError) ∧
    service_id (self st') = Some sid ∧
    auth_string (self st') = None.
Proof.
  intros Ha Hs Hc Hr Hf Hck. rewrite (start_run port st ctl Ha Hc). cbv zeta.
  rewrite Hr, Hf, Hs, Hck. by eexists.
Qed.

Lemma start_stealth_reply_without_cookie_witness :
  ∃ st',
    start 8080
      (Doubles.manager true true true
         (Some (Cases.answering "" [("250", "-", "ServiceID=duskgytldkxiuqc6");
                                    ("250", " ", "OK")])) None None None)
    = (st', Exc IndexError) ∧
    service_id (self st') = Some "duskgytldkxiuqc6" ∧
    auth_string (self st') = None.
Proof.
  apply (start_stealth_reply_without_cookie 8080
           (Doubles.manager true true true
              (Some (Cases.answering "" [("250", "-", "ServiceID=duskgytldkxiuqc6");
                                         ("250", " ", "OK")])) None None None)
           (Cases.answering "" [("250", "-", "ServiceID=duskgytldkxiuqc6");
                                ("250", " ", "OK")])
           [("250", "-", "ServiceID=duskgytldkxiuqc6"); ("250", " ", "OK")]).
  - split; [reflexivity|]. intros _. reflexivity.
  - reflexivity.
  - reflexivity.
  - reflexivity.
  - reflexivity.
  - reflexivity.
Defined.

(** What [start] adds to the history, however it ends. *)
Lemma start_history port st :
  ∃ added,
    trace (start port st).1 = trace st ++ added ∧
    removals added = [] ∧
    (List.length (creations added) ≤ 1)%nat ∧
    c (self (start port st).1) = c (self st) ∧
    tor_proc (self (start port st).1) = tor_proc (self st).
Proof.
  destruct (supports_ephemeral (self st)) eqn:Heph.
  2:{ exists []. unfold start. unfold_m. simpl. rewrite Heph. simpl.
      rewrite app_nil_r. split_and!; try done. simpl. lia. }
  destruct (stealth (self st) && negb (supports_stealth (self st))) eqn:Hst.
  { exists []. unfold start. unfold_m. simpl. rewrite Heph. simpl. rewrite Hst. simpl.
    rewrite app_nil_r. split_and!; try done. simpl. lia. }
  destruct (c (self st)) as [ctl|] eqn:Hc.
  2:{ exists (start_prints port). unfold start. unfold_m. simpl. rewrite Heph. simpl.
      rewrite Hst. simpl.
      destruct (stealth (self st)); simpl; rewrite Hc; simpl;
        rewrite <- ?app_assoc; simpl; (split_and!; try done; simpl; lia). }
  assert (Ha : start_allowed (self st)).
  { split; [done|]. intros Hs. rewrite Hs in Hst. simpl in Hst.
    by destruct (supports_stealth (self st)). }
  exists (start_prints port ++ [start_create port (self st)]).
  rewrite (start_run port st ctl Ha Hc). cbv zeta.
  destruct (start_answer port st ctl) as [res|e]; simpl; [|done].
  destruct (field_of res 0); simpl; [|done].
  destruct (stealth (self st)); simpl; [|done].
  by destruct (cookie_of res).
Qed.

(** X21. [start] never asks for the removal of a service, however it
    ends; it asks for at most one creation and leaves the controller and the
    process handle as they were. A service recorded by an earlier call is
    therefore not removed by a later one. *)
Theorem start_never_removes port st :
  ∃ added,
    trace (start port st).1 = trace st ++ added ∧
    removals added = [] ∧
    (List.length (creations added) ≤ 1)%nat ∧
    c (self (start port st).1) = c (self st) ∧
    tor_proc (self (start port st).1) = tor_proc (self st).
Proof. apply start_history. Qed.

Ltac cleanup_finish :=
  simpl; rewrite <- ?app_assoc; simpl;
  first [ eexists; split_and!; [reflexivity|done..]
        | exists []; rewrite ?app_nil_r; split_and!; [reflexivity|done..] ].

(** Whatever the signals do, [cleanup] first asks for the removal of the
    recorded service, asks for nothing else of the controller, and leaves
    no service id. *)
Lemma cleanup_history st :
  ∃ rest,
    trace (cleanup st).1 = trace st ++ removal_events (self st) ++ rest ∧
    removals rest = [] ∧
    creations rest = [] ∧
    truthy (service_id (self (cleanup st).1)) = false ∧
    c (self (cleanup st).1) = c (self st).
Proof.
  unfold cleanup, removal_events. unfold_all. simpl.
  destruct (truthy (service_id (self st))) eqn:Htr; simpl.
  - destruct (c (self st)) as [ctl|] eqn:Hc; simpl.
    + destruct (remove_ephemeral_hidden_service ctl _ _); simpl;
        repeat (case_match; simpl in *; simplify_eq); cleanup_finish.
    + repeat (case_match; simpl in *; simplify_eq); cleanup_finish.
  - repeat (case_match; simpl in *; simplify_eq); cleanup_finish.
Qed.

(** What a successful [start] leaves. *)
Lemma start_success port st st' host :
  start port st = (st', Val host) →
  ∃ ctl sid added,
    c (self st') = Some ctl ∧
    service_id (self st') = Some sid ∧
    host = sid +:+ ".onion" ∧
    trace st' = trace st ++ added ∧
    removals added = [].
Proof.
  intros H.
  destruct (start_history port st) as (added & Htr & Hrm & _ & Hc & _).
  rewrite H in Htr, Hc. simpl in *.
  destruct (supports_ephemeral (self st)) eqn:Heph.
  2:{ revert H. unfold start. unfold_m. simpl. by rewrite Heph. }
  destruct (stealth (self st) && negb (supports_stealth (self st))) eqn:Hst.
  { revert H. unfold start. unfold_m. simpl. rewrite Heph. simpl. by rewrite Hst. }
  destruct (c (self st)) as [ctl|] eqn:Hctl.
  2:{ revert H. unfold start. unfold_m. simpl. rewrite Heph. simpl. rewrite Hst. simpl.
      destruct (stealth (self st)); simpl; by rewrite Hctl. }
  assert (Ha : start_allowed (self st)).
  { split; [done|]. intros Hs. rewrite Hs in Hst. simpl in Hst.
    by destruct (supports_stealth (self st)). }
  rewrite (start_run port st ctl Ha Hctl) in H. cbv zeta in H.
  destruct (start_answer port st ctl) as [res|e]; [|done].
  destruct (field_of res 0) as [sid|]; [|done].
  exists ctl, sid, added.
  destruct (stealth (self st)).
  - destruct (cookie_of res); [|done]. by injection H as <- <-.
  - by injection H as <- <-.
Qed.

(** X22. After a successful [start], [cleanup] asks first for the
    removal of the service whose host name [start] returned, for no other
    removal and for no creation, and leaves no service id, whatever the
    signals to the process do. Only when that service id is the empty
    string does it ask for no removal at all. *)
Theorem cleanup_removes_started_service port st st' host :
  start port st = (st', Val host) →
  ∃ sid rest,
    host = sid +:+ ".onion" ∧
    trace (cleanup st').1
    = trace st' ++ (if truthy (Some sid) then [EvRemove sid] else []) ++ rest ∧
    removals rest = [] ∧
    creations rest = [] ∧
    truthy (service_id (self (cleanup st').1)) = false.
Proof.
  intros H. apply start_success in H as (ctl & sid & added & Hc & Hsid & -> & _ & _).
  destruct (cleanup_history st') as (rest & Htr & Hrm & Hcr & Hid & _).
  exists sid, rest. split_and!; try done.
  rewrite Htr. unfold removal_events. by rewrite Hsid, Hc.
Qed.

Lemma cleanup_removes_started_service_witness :
  ∃ sid rest,
    "duskgytldkxiuqc6.onion" = sid +:+ ".onion" ∧
    trace (cleanup (start 8080 (Doubles.manager false true false (Some Doubles.tor)
                                  (Some Doubles.child_gone) None None)).1).1
    = trace (start 8080 (Doubles.manager false true false (Some Doubles.tor)
                           (Some Doubles.child_gone) None None)).1
      ++ (if truthy (Some sid) then [EvRemove sid] else []) ++ rest ∧
    removals rest = [] ∧
    creations rest = [] ∧
    truthy (service_id
              (self (cleanup (start 8080 (Doubles.manager false true false
                                            (Some Doubles.tor) (Some Doubles.child_gone)
                                            None None)).1).1)) = false.
Proof.
  apply (cleanup_removes_started_service 8080
           (Doubles.manager false true false (Some Doubles.tor)
              (Some Doubles.child_gone) None None)).
  reflexivity.
Defined.

(** X23. A second successful [start] replaces the recorded service
    without removing the first: from the second [start] through the
    [cleanup] that follows, the only removal asked for is that of the second
    service (none at all if its id is the empty string), and at most one
    creation is asked for. *)
Theorem second_start_replaces_without_removal port1 port2 st st1 st2 host1 host2 :
  start port1 st = (st1, Val host1) →
  start port2 st1 = (st2, Val host2) →
  ∃ sid1 sid2 later,
    host1 = sid1 +:+ ".onion" ∧
    service_id (self st1) = Some sid1 ∧
    host2 = sid2 +:+ ".onion" ∧
    service_id (self st2) = Some sid2 ∧
    trace (cleanup st2).1 = trace st1 ++ later ∧
    removals later = (if truthy (Some sid2) then [sid2] else []) ∧
    (List.length (creations later) ≤ 1)%nat.
Proof.
  intros H1 H2.
  destruct (start_history port2 st1) as (added & Htr & Hrm & Hcr & _).
  rewrite H2 in Htr. simpl in Htr.
  apply start_success in H1 as (_ & sid1 & _ & _ & Hsid1 & -> & _ & _).
  apply start_success in H2 as (ctl & sid2 & _ & Hc & Hsid & -> & _ & _).
  destruct (cleanup_history st2) as (rest & Htr' & Hrm' & Hcr' & _ & _).
  exists sid1, sid2, (added ++ removal_events (self st2) ++ rest).
  split_and!; try done.
  - by rewrite Htr', Htr, <- app_assoc.
  - rewrite !removals_app, Hrm, Hrm'. unfold removal_events. rewrite Hsid, Hc. simpl.
    destruct sid2; simpl; done.
  - rewrite !creations_app, Hcr'. unfold removal_events. rewrite Hsid, Hc.
    rewrite app_nil_r. destruct (truthy (Some sid2)); simpl; rewrite app_nil_r; lia.
Qed.

Lemma second_start_replaces_without_removal_witness :
  ∃ sid1 sid2 later,
    "duskgytldkxiuqc6.onion" = sid1 +:+ ".onion" ∧
    service_id (self (start 8080 (Doubles.manager false true false (Some Doubles.tor)
                                    None None None)).1) = Some sid1 ∧
    "duskgytldkxiuqc6.onion" = sid2 +:+ ".onion" ∧
    service_id
      (self (start 8081 (start 8080 (Doubles.manager false true false (Some Doubles.tor)
                                       None None None)).1).1) = Some sid2 ∧
    trace (cleanup (start 8081 (start 8080 (Doubles.manager false true false
                                              (Some Doubles.tor) None None None)).1).1).1
    = trace (start 8080 (Doubles.manager false true false (Some Doubles.tor)
                           None None None)).1 ++ later ∧
    removals later = (if truthy (Some sid2) then [sid2] else []) ∧
    (List.length (creations later) ≤ 1)%nat.
Proof.
  apply (second_start_replaces_without_removal 8080 8081
           (Doubles.manager false true false (Some Doubles.tor) None None None)).
  - reflexivity.
  - reflexivity.
Defined.

(** ** Further properties of the automatic strategy *)

Ltac unfold_automatic :=
  unfold init_automatic, local_socket_file_path, set_found_tor, set_socket_file_path;
  cbn [for_each]; unfold_all; simpl.

(** X1. The automatic branch raises nothing but [TorErrorAutomatic]:
    whatever the world does, it either returns, with a controller recorded
    and an [authenticate()] without credential as its last call, or raises
    [TorErrorAutomatic]. *)
Theorem automatic_raises_only_TorErrorAutomatic w st :
  ((init_automatic w st).2 = Val tt ∧
   is_Some (c (self (init_automatic w st).1)) ∧
   ∃ h, trace (init_automatic w st).1 = h ++ [EvAuthenticate None])
  ∨ (init_automatic w st).2 = Exc TorErrorAutomatic.
Proof.
  unfold_automatic.
  repeat (case_match; simpl in *; simplify_eq); try (by right);
    left; split_and!; try done; by eexists.
Qed.

(** X2. Without an override, when port 9151 answers and port 9153
    refuses, the controller recorded is the one of port 9151: the scan ends
    at 9153, port 9051 and the socket paths are not tried, and the
    controller is authenticated without credential; a failure of that
    authentication is [TorErrorAutomatic]. *)
Theorem automatic_first_port_only w st ctl e :
  truthy (environ_TOR_CONTROL_PORT w) = false →
  from_port w (trace st) "127.0.0.1" 9151 = Ok ctl →
  from_port w (trace st ++ [EvFromPort "127.0.0.1" 9151]) "127.0.0.1" 9153 = Raise e →
  ∃ st',
    (init_automatic w st).1 = st' ∧
    c (self st') = Some ctl ∧
    trace st' = trace st ++ [EvFromPort "127.0.0.1" 9151; EvFromPort "127.0.0.1" 9153;
                             EvAuthenticate None] ∧
    (init_automatic w st).2 =
      match authenticate ctl (trace st ++ [EvFromPort "127.0.0.1" 9151;
                                           EvFromPort "127.0.0.1" 9153]) None with
      | None => Val tt
      | Some _ => Exc TorErrorAutomatic
      end.
Proof.
  intros Henv H1 H2. unfold_automatic. rewrite Henv. simpl. rewrite H1. simpl.
  rewrite H2. simpl. rewrite <- !app_assoc. simpl.
  destruct (authenticate ctl _ None); simpl; rewrite <- ?app_assoc; simpl; by eexists.
Qed.

Lemma automatic_first_port_only_witness :
  ∃ st',
    (init_automatic Cases.linux_with_tor_browser Doubles.fresh).1 = st' ∧
    c (self st') = Some Doubles.tor ∧
    trace st' = [EvFromPort "127.0.0.1" 9151; EvFromPort "127.0.0.1" 9153;
                 EvAuthenticate None] ∧
    (init_automatic Cases.linux_with_tor_browser Doubles.fresh).2 = Val tt.
Proof.
  apply (automatic_first_port_only Cases.linux_with_tor_browser Doubles.fresh
           Doubles.tor SocketError).
  - reflexivity.
  - reflexivity.
  - reflexivity.
Defined.

(** X3. Without an override, when all three ports answer, all three are
    connected to and the controller recorded, the one that is then
    authenticated, is the last, that of port 9051: a success does not end
    the scan. *)
Theorem automatic_keeps_last_port w st ctl1 ctl2 ctl3 :
  truthy (environ_TOR_CONTROL_PORT w) = false →
  from_port w (trace st) "127.0.0.1" 9151 = Ok ctl1 →
  from_port w (trace st ++ [EvFromPort "127.0.0.1" 9151]) "127.0.0.1" 9153 = Ok ctl2 →
  from_port w (trace st ++ [EvFromPort "127.0.0.1" 9151; EvFromPort "127.0.0.1" 9153])
    "127.0.0.1" 9051 = Ok ctl3 →
  ∃ st',
    (init_automatic w st).1 = st' ∧
    c (self st') = Some ctl3 ∧
    trace st' = trace st ++ [EvFromPort "127.0.0.1" 9151; EvFromPort "127.0.0.1" 9153;
                             EvFromPort "127.0.0.1" 9051; EvAuthenticate None] ∧
    (init_automatic w st).2 =
      match authenticate ctl3 (trace st ++ [EvFromPort "127.0.0.1" 9151;
                                            EvFromPort "127.0.0.1" 9153;
                                            EvFromPort "127.0.0.1" 9051]) None with
      | None => Val tt
      | Some _ => Exc TorErrorAutomatic
      end.
Proof.
  intros Henv H1 H2 H3. unfold_automatic. rewrite Henv. simpl. rewrite H1. simpl.
  rewrite <- ?app_assoc. simpl. rewrite H2. simpl. rewrite <- ?app_assoc. simpl.
  rewrite H3. simpl. rewrite <- ?app_assoc. simpl.
  destruct (authenticate ctl3 _ None); simpl; rewrite <- ?app_assoc; simpl; by eexists.
Qed.

Lemma automatic_keeps_last_port_witness :
  ∃ st',
    (init_automatic Cases.linux_with_password_tor Doubles.fresh).1 = st' ∧
    c (self st') = Some (Cases.password_tor "secret") ∧
    trace st' = [EvFromPort "127.0.0.1" 9151; EvFromPort "127.0.0.1" 9153;
                 EvFromPort "127.0.0.1" 9051; EvAuthenticate None] ∧
    (init_automatic Cases.linux_with_password_tor Doubles.fresh).2
    = Exc TorErrorAutomatic.
Proof.
  apply (automatic_keeps_last_port Cases.linux_with_password_tor Doubles.fresh
           (Cases.password_tor "secret") (Cases.password_tor "secret")
           (Cases.password_tor "secret")).
  - reflexivity.
  - reflexivity.
  - reflexivity.
  - reflexivity.
Defined.

(** X4. With the override set, the automatic branch connects to at most
    one TCP port, the one the override names: none of the well-known ports is
    tried on its own account, and an override that is not a number leads to
    no TCP connection at all. *)
Theorem automatic_override_only_port w st :
  truthy (environ_TOR_CONTROL_PORT w) = true →
  ∃ added,
    trace (init_automatic w st).1 = trace st ++ added ∧
    (∀ port, port ∈ from_ports added →
       py_int w (default EmptyString (environ_TOR_CONTROL_PORT w)) = Some port) ∧
    (List.length (from_ports added) ≤ 1)%nat.
Proof.
  intros Henv. unfold_automatic. rewrite Henv. simpl.
  repeat (case_match; simpl in *; simplify_eq);
    simpl; rewrite <- ?app_assoc; simpl;
    first [ eexists; split; [reflexivity|]
          | exists []; rewrite ?app_nil_r; split; [reflexivity|] ];
    simpl;
    (split; [intros port; rewrite ?elem_of_cons, ?elem_of_nil; naive_solver | lia]).
Qed.

Lemma automatic_override_only_port_witness :
  ∃ added,
    trace (init_automatic
             (Cases.with_environment (Some "9999") false Cases.linux_with_tor_browser)
             Doubles.fresh).1 = [] ++ added ∧
    (∀ port, port ∈ from_ports added → Doubles.int "9999" = Some port) ∧
    (List.length (from_ports added) ≤ 1)%nat.
Proof.
  apply (automatic_override_only_port
           (Cases.with_environment (Some "9999") false Cases.linux_with_tor_browser)
           Doubles.fresh).
  reflexivity.
Defined.

(** The override 9999 in a world where only 9151 answers: one connection,
    to 9999, then the socket path. *)
Example automatic_override_history :
  trace (init_automatic
           (Cases.with_environment (Some "9999") false Cases.linux_with_tor_browser)
           Doubles.fresh).1
  = [EvFromPort "127.0.0.1" 9999; EvFromSocketFile "/run/user/1000/Tor/control.socket"].
Proof. reflexivity. Qed.

(** ** Further properties of the manual strategy *)

Lemma init_manual_connect_fails w st e :
  manual_transport (settings (self st)) →
  manual_connect w (settings (self st)) (trace st) = Raise e →
  init_manual w st =
  (append [manual_connect_event (settings (self st))] st,
   Exc (if String.eqb (connection_type (settings (self st))) "control_port"
        then TorErrorSocketPort (control_port_address (settings (self st)))
               (control_port_port (settings (self st)))
        else TorErrorSocketFile (socket_file_path (settings (self st))))).
Proof.
  unfold manual_transport, manual_connect, manual_connect_event, append, init_manual.
  intros [Hct|Hct]; rewrite Hct; simpl; intros He; unfold_all; simpl; rewrite Hct; simpl;
    by rewrite He.
Qed.

Lemma init_manual_connected w st ctl :
  manual_transport (settings (self st)) →
  manual_connect w (settings (self st)) (trace st) = Ok ctl →
  let s := settings (self st) in
  let st1 := mkSt (set_c (Some ctl) (self st)) (frame st)
               (trace st ++ [manual_connect_event s]) in
  init_manual w st =
  match manual_credential s with
  | None => (st1, Exc TorErrorInvalidSetting)
  | Some cred =>
      (append [EvAuthenticate cred] st1,
       match authenticate ctl (trace st1) cred with
       | None => Val tt
       | Some e => Exc (auth_error s e)
       end)
  end.
Proof.
  unfold manual_transport, manual_connect, manual_connect_event, manual_credential,
    auth_error, append, init_manual.
  intros [Hct|Hct]; rewrite Hct; simpl; intros He; unfold_all; simpl; rewrite Hct; simpl;
    rewrite He; simpl;
    (destruct (String.eqb (auth_type (settings (self st))) "no_auth"); simpl;
     [|destruct (String.eqb (auth_type (settings (self st))) "password"); simpl; [|done]]);
    (destruct (authenticate ctl _ _) as [e|]; simpl; [by destruct e|done]).
Qed.

(** X5. With manual settings whose endpoint cannot be connected to, the
    manual branch raises the transport error of the configured transport,
    naming the endpoint ([TorErrorSocketPort] with address and port,
    [TorErrorSocketFile] with the path), after that one connection attempt
    and nothing else; the object is left as it was (no controller, no
    process, no service). *)
Theorem manual_unreachable_endpoint w st e :
  manual_transport (settings (self st)) →
  manual_connect w (settings (self st)) (trace st) = Raise e →
  ∃ st',
    init_manual w st =
    (st', Exc (if String.eqb (connection_type (settings (self st))) "control_port"
               then TorErrorSocketPort (control_port_address (settings (self st)))
                      (control_port_port (settings (self st)))
               else TorErrorSocketFile (socket_file_path (settings (self st))))) ∧
    self st' = self st ∧
    trace st' = trace st ++ [manual_connect_event (settings (self st))].
Proof.
  intros Ht He. rewrite (init_manual_connect_fails w st e Ht He). by eexists.
Qed.

Lemma manual_unreachable_endpoint_witness :
  ∃ st',
    init_manual Doubles.linux_without_tor
      (Cases.configured (Doubles.manual "control_port" "no_auth"))
    = (st', Exc (TorErrorSocketPort "127.0.0.1" 9051)) ∧
    self st' = self (Cases.configured (Doubles.manual "control_port" "no_auth")) ∧
    trace st' = [EvFromPort "127.0.0.1" 9051].
Proof.
  apply (manual_unreachable_endpoint Doubles.linux_without_tor
           (Cases.configured (Doubles.manual "control_port" "no_auth")) SocketError).
  - left. reflexivity.
  - reflexivity.
Defined.

(** X6. Once connected, an exception of [authenticate] becomes
    [TorErrorMissingPassword] for [MissingPassword],
    [TorErrorUnreadableCookieFile] for [UnreadableCookieFile],
    [TorErrorAuthError] (with the control port address and port of the
    settings, also for a socket connection) for any other
    [AuthenticationFailure], and is left as it is otherwise; the controller
    stays recorded. *)
Theorem manual_auth_failure w st ctl cred e :
  manual_transport (settings (self st)) →
  manual_connect w (settings (self st)) (trace st) = Ok ctl →
  manual_credential (settings (self st)) = Some cred →
  authenticate ctl (trace st ++ [manual_connect_event (settings (self st))]) cred = Some e →
  ∃ st',
    init_manual w st = (st', Exc (auth_error (settings (self st)) e)) ∧
    c (self st') = Some ctl ∧
    trace st' = trace st ++ [manual_connect_event (settings (self st)); EvAuthenticate cred].
Proof.
  intros Ht Hc Hcred He. rewrite (init_manual_connected w st ctl Ht Hc). cbv zeta.
  rewrite Hcred. simpl. rewrite He. eexists. split_and!; try done.
  simpl. by rewrite <- app_assoc.
Qed.

Lemma manual_auth_failure_witness :
  ∃ st',
    init_manual
      (Doubles.host "Linux" Doubles.nowhere
         (fun _ => Some (Cases.password_tor "secret")) Doubles.child_hanging 5000)
      (Cases.configured (Doubles.manual "socket_file" "no_auth"))
    = (st', Exc TorErrorMissingPassword) ∧
    c (self st') = Some (Cases.password_tor "secret") ∧
    trace st' = [EvFromSocketFile "/var/run/tor/control"; EvAuthenticate None].
Proof.
  apply (manual_auth_failure
           (Doubles.host "Linux" Doubles.nowhere
              (fun _ => Some (Cases.password_tor "secret")) Doubles.child_hanging 5000)
           (Cases.configured (Doubles.manual "socket_file" "no_auth"))
           (Cases.password_tor "secret") None MissingPassword).
  - right. reflexivity.
  - reflexivity.
  - reflexivity.
  - reflexivity.
Defined.

(** X7. Once connected, an auth type that is neither [no_auth] nor
    [password] raises [TorErrorInvalidSetting]; the connection has been
    opened and recorded by then, and no [authenticate] was called. *)
Theorem manual_unknown_auth_type w st ctl :
  manual_transport (settings (self st)) →
  manual_connect w (settings (self st)) (trace st) = Ok ctl →
  manual_credential (settings (self st)) = None →
  ∃ st',
    init_manual w st = (st', Exc TorErrorInvalidSetting) ∧
    c (self st') = Some ctl ∧
    trace st' = trace st ++ [manual_connect_event (settings (self st))].
Proof.
  intros Ht Hc Hcred. rewrite (init_manual_connected w st ctl Ht Hc). cbv zeta.
  rewrite Hcred. by eexists.
Qed.

Lemma manual_unknown_auth_type_witness :
  ∃ st',
    init_manual Cases.linux_with_password_tor
      (Cases.configured (Doubles.manual "control_port" "cookie"))
    = (st', Exc TorErrorInvalidSetting) ∧
    c (self st') = Some (Cases.password_tor "secret") ∧
    trace st' = [EvFromPort "127.0.0.1" 9051].
Proof.
  apply (manual_unknown_auth_type Cases.linux_with_password_tor
           (Cases.configured (Doubles.manual "control_port" "cookie"))
           (Cases.password_tor "secret")).
  - left. reflexivity.
  - reflexivity.
  - reflexivity.
Defined.

(** X8. With manual settings the branch succeeds by exactly two calls:
    the connection to the configured endpoint and one [authenticate], without
    argument for [no_auth], with the configured password for [password]; it
    records the controller and changes nothing else of the object. *)
Theorem manual_success w st ctl cred :
  manual_transport (settings (self st)) →
  manual_connect w (settings (self st)) (trace st) = Ok ctl →
  manual_credential (settings (self st)) = Some cred →
  authenticate ctl (trace st ++ [manual_connect_event (settings (self st))]) cred = None →
  ∃ st',
    init_manual w st = (st', Val tt) ∧
    self st' = set_c (Some ctl) (self st) ∧
    trace st' = trace st ++ [manual_connect_event (settings (self st)); EvAuthenticate cred].
Proof.
  intros Ht Hc Hcred He. rewrite (init_manual_connected w st ctl Ht Hc). cbv zeta.
  rewrite Hcred. simpl. rewrite He. eexists. split_and!; try done.
  simpl. by rewrite <- app_assoc.
Qed.

Lemma manual_success_witness :
  ∃ st',
    init_manual Cases.linux_with_password_tor
      (Cases.configured (Doubles.manual "control_port" "password"))
    = (st', Val tt) ∧
    self st' = set_c (Some (Cases.password_tor "secret"))
                 (self (Cases.configured (Doubles.manual "control_port" "password"))) ∧
    trace st' = [EvFromPort "127.0.0.1" 9051; EvAuthenticate (Some "secret")].
Proof.
  apply (manual_success Cases.linux_with_password_tor
           (Cases.configured (Doubles.manual "control_port" "password"))
           (Cases.password_tor "secret") (Some "secret")).
  - left. reflexivity.
  - reflexivity.
  - reflexivity.
  - reflexivity.
Defined.

(** ** Further properties of the bundled strategy *)

(** X9. With the bundled connection type on Windows or on macOS in dev
    mode, [__init__] raises [BundledTorNotSupported] before anything else is
    done: no directory, no file, no process, no connection. *)
Theorem bundled_refused_in_dev_mode w fuel stealth_ s f st :
  connection_type s = "bundled" →
  platform_system w = "Windows" ∨ platform_system w = "Darwin" →
  onionshare_dev_mode w = true →
  (__init__ w fuel stealth_ (Some s) f st).2 = Exc BundledTorNotSupported ∧
  trace (__init__ w fuel stealth_ (Some s) f st).1 = trace st ∧
  tor_proc (self (__init__ w fuel stealth_ (Some s) f st).1) = None.
Proof.
  intros Hs Hsys Hdev. unfold __init__, init_bundled. unfold_m. simpl.
  rewrite Hs, Hdev. simpl.
  destruct Hsys as [-> | ->]; simpl; done.
Qed.

Lemma bundled_refused_in_dev_mode_witness :
  (__init__ (Cases.with_environment None true Doubles.windows_with_tor) 1 false
     (Some Doubles.bundled) None Doubles.fresh).2 = Exc BundledTorNotSupported ∧
  trace (__init__ (Cases.with_environment None true Doubles.windows_with_tor) 1 false
           (Some Doubles.bundled) None Doubles.fresh).1 = [] ∧
  tor_proc (self (__init__ (Cases.with_environment None true Doubles.windows_with_tor) 1
                    false (Some Doubles.bundled) None Doubles.fresh).1) = None.
Proof.
  apply (bundled_refused_in_dev_mode
           (Cases.with_environment None true Doubles.windows_with_tor) 1 false
           Doubles.bundled None Doubles.fresh).
  - reflexivity.
  - left. reflexivity.
  - reflexivity.
Defined.

(** X10. When the torrc is written and the child is started but the
    connection to its controller cannot be made, the launch ends in an
    exception with the child left running: the process handle is recorded
    and no [terminate()] was called. *)
Theorem bundled_launch_failure_leaves_child w fuel f dir t st proc e :
  (∀ h path contents, write_file w h path contents = None) →
  (∀ h argv, popen w h argv = Ok proc) →
  (∀ h address port, from_port w h address port = Raise e) →
  (∀ h path, from_socket_file w h path = Raise e) →
  ∃ st' e',
    bundled_launch w fuel f dir t st = (st', Exc e') ∧
    tor_proc (self st') = Some proc ∧
    terminations (trace st') = terminations (trace st) ∧
    c (self st') = c (self st).
Proof.
  intros Hw Hp Hfp Hfs. unfold bundled_launch. cbv zeta. unfold_m. simpl.
  rewrite Hw. simpl. rewrite Hp. simpl.
  destruct (String.eqb (platform_system w) "Windows"); simpl.
  - destruct (tor_control_port (self st)); simpl; [rewrite Hfp; simpl|];
      eexists _, _; split_and!; try done;
      simpl; rewrite ?terminations_app; cbn; lia.
  - destruct (tor_control_socket (self st)); simpl; [rewrite Hfs; simpl|];
      eexists _, _; split_and!; try done;
      simpl; rewrite ?terminations_app; cbn; lia.
Qed.

Lemma bundled_launch_failure_leaves_child_witness :
  ∃ st' e',
    bundled_launch Doubles.linux_without_tor 1 None "/tmp/tmpk3x1" "SocksPort 0"
      (mkSt (set_tor_control_socket (Some "/tmp/tmpk3x1/control_socket") blank)
            (mkLocals false None) [])
    = (st', Exc e') ∧
    tor_proc (self st') = Some Doubles.child_hanging ∧
    terminations (trace st') = terminations [] ∧
    c (self st') = None.
Proof.
  apply (bundled_launch_failure_leaves_child Doubles.linux_without_tor 1 None
           "/tmp/tmpk3x1" "SocksPort 0"
           (mkSt (set_tor_control_socket (Some "/tmp/tmpk3x1/control_socket") blank)
                 (mkLocals false None) [])
           Doubles.child_hanging SocketError).
  - intros h path contents. reflexivity.
  - intros h argv. reflexivity.
  - intros h address port. reflexivity.
  - intros h path. reflexivity.
Defined.

(** ** Further properties of the bootstrap loop *)

Lemma callbacks_app h h' : callbacks (h ++ h') = callbacks h ++ callbacks h'.
Proof. apply omap_app. Qed.

(** X11. A poll whose summary is [Done] ends the loop at once, wherever
    the clock stands: the loop returns after that poll without sleeping and
    without reading the clock, so a bootstrap that is done is never reported
    as timed out. *)
Theorem bootstrap_done_before_clock w f start_ts fuel st ctl res pr :
  c (self st) = Some ctl →
  get_info ctl (trace st) "status/bootstrap-phase" = Ok res →
  progress_of w res = Some pr →
  summary_of w res = Some "Done" →
  (∀ g h s, f = Some g → g h s = None) →
  bootstrap_loop w f start_ts (S fuel) st =
  (append (EvGetInfo "status/bootstrap-phase" (Ok res) :: status_events f pr "Done"
             ++ [EvPrint (Line "")]) st,
   Val tt).
Proof.
  intros Hc Hres Hpr Hsu Hcb. unfold progress_of, summary_of, reply_field in *.
  destruct (shlex_split w res) as [parts|] eqn:Hparts; simpl in *; [|done].
  destruct (parts !! 2%nat) as [part2|] eqn:H2; simpl in *; [|done].
  destruct (parts !! 4%nat) as [part4|] eqn:H4; simpl in *; [|done].
  destruct st as [o fr tr]. simpl in *. unfold append, status_events. simpl.
  unfold_all. simpl. rewrite Hc. simpl. rewrite Hres. simpl. rewrite Hparts. simpl.
  rewrite H2. simpl. rewrite Hpr. simpl. rewrite H4. simpl. rewrite Hsu. simpl.
  destruct f as [g|]; simpl.
  - rewrite (Hcb g) by done. simpl. by rewrite <- ?app_assoc.
  - by rewrite <- ?app_assoc.
Qed.

Lemma bootstrap_done_before_clock_witness :
  bootstrap_loop Doubles.linux_without_tor (Some Cases.quiet) (float_of_Z (-100000)) 1
    (Doubles.manager false false false (Some Doubles.tor) None None None)
  = (append
       (EvGetInfo "status/bootstrap-phase"
          (Ok ("NOTICE BOOTSTRAP PROGRESS=100 TAG=done SUMMARY=" +:+ Doubles.quoted "Done"))
        :: status_events (Some Cases.quiet) "100" "Done" ++ [EvPrint (Line "")])
       (Doubles.manager false false false (Some Doubles.tor) None None None),
     Val tt).
Proof.
  apply (bootstrap_done_before_clock Doubles.linux_without_tor (Some Cases.quiet)
           (float_of_Z (-100000)) 0
           (Doubles.manager false false false (Some Doubles.tor) None None None)
           Doubles.tor).
  - reflexivity.
  - reflexivity.
  - reflexivity.
  - reflexivity.
  - intros g h s Hg. injection Hg as <-. reflexivity.
Defined.

(** X13. A reply to [status/bootstrap-phase] from which the progress or
    the summary cannot be read makes the loop raise [ValueError] or
    [IndexError] right after that poll: nothing is printed, the callback is
    not called, and the process is not terminated. *)
Theorem bootstrap_unreadable_reply w f start_ts fuel st ctl res :
  c (self st) = Some ctl →
  get_info ctl (trace st) "status/bootstrap-phase" = Ok res →
  progress_of w res = None ∨ summary_of w res = None →
  ∃ e,
    bootstrap_loop w f start_ts (S fuel) st
    = (append [EvGetInfo "status/bootstrap-phase" (Ok res)] st, Exc e) ∧
    (e = ValueError ∨ e = IndexError).
Proof.
  intros Hc Hres Hbad. unfold progress_of, summary_of, reply_field in *.
  destruct st as [o fr tr]. simpl in *. unfold append. simpl.
  unfold_all. simpl. rewrite Hc. simpl. rewrite Hres. simpl.
  destruct (shlex_split w res) as [parts|] eqn:Hparts; simpl in *.
  2:{ exists ValueError. split; [done|by left]. }
  destruct (parts !! 2%nat) as [part2|] eqn:H2; simpl in *.
  2:{ exists IndexError. split; [done|by right]. }
  destruct (split_on "=" part2 !! 1%nat) as [pr|] eqn:Hpr; simpl in *.
  2:{ exists IndexError. split; [done|by right]. }
  destruct (parts !! 4%nat) as [part4|] eqn:H4; simpl in *.
  2:{ exists IndexError. split; [done|by right]. }
  destruct (split_on "=" part4 !! 1%nat) as [su|] eqn:Hsu; simpl in *.
  2:{ exists IndexError. split; [done|by right]. }
  by destruct Hbad.
Qed.

Lemma bootstrap_unreadable_reply_witness :
  ∃ e,
    bootstrap_loop Doubles.linux_without_tor None (float_of_Z 0) 1
      (Doubles.manager false false false (Some (Cases.answering "250 OK" []))
         (Some Doubles.child_hanging) None None)
    = (append [EvGetInfo "status/bootstrap-phase" (Ok "250 OK")]
         (Doubles.manager false false false (Some (Cases.answering "250 OK" []))
            (Some Doubles.child_hanging) None None), Exc e) ∧
    (e = ValueError ∨ e = IndexError).
Proof.
  apply (bootstrap_unreadable_reply Doubles.linux_without_tor None (float_of_Z 0) 0
           (Doubles.manager false false false (Some (Cases.answering "250 OK" []))
              (Some Doubles.child_hanging) None None)
           (Cases.answering "250 OK" [])).
  - reflexivity.
  - reflexivity.
  - left. reflexivity.
Defined.

Section Callbacks.

Context (w : World) (g : callback) (start_ts : float).
Context (ctl : Controller) (p : Popen).
Hypothesis callback_returns : ∀ h s, g h s = None.
Hypothesis terminate_returns : ∀ h, terminate p h = None.
Hypothesis replies_well_formed :
  ∀ h, ∃ res pr su,
    get_info ctl h "status/bootstrap-phase" = Ok res ∧
    progress_of w res = Some pr ∧ summary_of w res = Some su.

Lemma reported_app h h' : reported w h → reported w h' → reported w (h ++ h').
Proof.
  unfold reported. rewrite polls_app, callbacks_app. apply Forall2_app.
Qed.

Lemma reported_quiet h : polls h = [] → callbacks h = [] → reported w h.
Proof. unfold reported. intros -> ->. constructor. Qed.

Lemma reported_poll res pr su :
  progress_of w res = Some pr → summary_of w res = Some su →
  reported w (EvGetInfo "status/bootstrap-phase" (Ok res) :: status_events (Some g) pr su).
Proof.
  intros Hpr Hsu. unfold reported.
  change (Forall2 (λ a s, status_line w a = Some s) [Ok res] [pr +:+ "% - " +:+ su]).
  constructor; [|constructor].
  unfold status_line. rewrite Hpr. cbn [mbind option_bind]. by rewrite Hsu.
Qed.

Lemma bootstrap_reports fuel :
  ∀ st,
    c (self st) = Some ctl →
    tor_proc (self st) = Some p →
    ∃ added,
      (bootstrap_loop w (Some g) start_ts fuel st).1 = append added st ∧
      reported w added.
Proof.
  induction fuel as [|fuel IH]; intros st Hc Hp.
  { exists []. simpl. unfold out_of_fuel, append. simpl. rewrite app_nil_r.
    split; [by destruct st|constructor]. }
  destruct (replies_well_formed (trace st)) as (res & pr & su & Hres & Hpr & Hsu).
  assert (Hcb : ∀ g' h s, Some g = Some g' → g' h s = None).
  { intros g' h s [= <-]. apply callback_returns. }
  rewrite (bootstrap_step w (Some g) start_ts ctl p Hcb terminate_returns
             fuel st res pr su Hc Hp Hres Hpr Hsu).
  cbv zeta.
  pose proof (reported_poll res pr su Hpr Hsu) as Hpolled.
  set (polled := EvGetInfo "status/bootstrap-phase" (Ok res)
                   :: status_events (Some g) pr su) in *.
  destruct (String.eqb su "Done").
  { eexists. split; [done|]. apply reported_app; [done|]. by apply reported_quiet. }
  destruct (float_ltb _ _).
  { eexists. split; [done|]. apply reported_app; [done|]. by apply reported_quiet. }
  destruct (IH (append (polled ++ [EvSleep 200;
                 EvTime (time_time w (trace st ++ polled ++ [EvSleep 200]))]) st))
    as (added & Hrun & Hrep); [done..|].
  rewrite Hrun, append_append. eexists. split; [done|].
  apply reported_app; [|done]. apply reported_app; [done|]. by apply reported_quiet.
Qed.

End Callbacks.

(** X12. With a progress callback, as long as the replies can be read and
    the callback and [terminate()] return, the callback is called exactly
    once for every poll, in the order of the polls, with the status line
    ["<progress>% - <summary>"] of that poll, however the loop ends. *)
Theorem bootstrap_callback_per_poll w g start_ts ctl p fuel st :
  (∀ h s, g h s = None) →
  (∀ h, terminate p h = None) →
  (∀ h, ∃ res pr su,
     get_info ctl h "status/bootstrap-phase" = Ok res ∧
     progress_of w res = Some pr ∧ summary_of w res = Some su) →
  c (self st) = Some ctl →
  tor_proc (self st) = Some p →
  ∃ added,
    (bootstrap_loop w (Some g) start_ts fuel st).1 = append added st ∧
    reported w added.
Proof. intros. by eapply bootstrap_reports. Qed.

Lemma bootstrap_callback_per_poll_witness :
  ∃ added,
    (bootstrap_loop Doubles.linux_without_tor (Some Cases.quiet) (float_of_Z 0) 3
       (Doubles.manager false false false (Some Doubles.stuck_tor)
          (Some Doubles.child_hanging) None None)).1
    = append added
        (Doubles.manager false false false (Some Doubles.stuck_tor)
           (Some Doubles.child_hanging) None None) ∧
    reported Doubles.linux_without_tor added.
Proof.
  apply (bootstrap_callback_per_poll Doubles.linux_without_tor Cases.quiet (float_of_Z 0)
           Doubles.stuck_tor Doubles.child_hanging 3
           (Doubles.manager false false false (Some Doubles.stuck_tor)
              (Some Doubles.child_hanging) None None)).
  - intros h s. reflexivity.
  - intros h. reflexivity.
  - intros h. eexists _, "50", "Loading relay descriptors". split_and!; reflexivity.
  - reflexivity.
  - reflexivity.
Defined.

(** Three rounds on a Tor stuck at 50%: three polls, three calls of the
    callback. *)
Example bootstrap_three_rounds :
  callbacks (trace (bootstrap_loop Doubles.linux_without_tor (Some Cases.quiet) (float_of_Z 0) 3
                      (Doubles.manager false false false (Some Doubles.stuck_tor)
                         (Some Doubles.child_hanging) None None)).1)
  = ["50% - Loading relay descriptors"; "50% - Loading relay descriptors";
     "50% - Loading relay descriptors"].
Proof. reflexivity. Qed.

(** ** Construction as a whole *)

Section KeepsMore.
Context (P : St → Prop).
Hypothesis P_log : ∀ st e, P st → P (mkSt (self st) (frame st) (trace st ++ [e])).
Hypothesis P_frame : ∀ st fr, P st → P (mkSt (self st) fr (trace st)).

Lemma keeps_set_found_tor b : keeps P (set_found_tor b).
Proof. intros st HP. by apply P_frame. Qed.
Lemma keeps_set_socket_file_path path : keeps P (set_socket_file_path path).
Proof. intros st HP. by apply P_frame. Qed.
Lemma keeps_allocation w fuel : keeps P (_get_available_port w fuel).
Proof.
  induction fuel as [|fuel IH]; simpl; [apply keeps_out_of_fuel|].
  unfold_calls. keeps_tac.
Qed.
Lemma keeps_bootstrap w f start_ts fuel : keeps P (bootstrap_loop w f start_ts fuel).
Proof.
  induction fuel as [|fuel IH]; simpl; [apply keeps_out_of_fuel|].
  unfold_calls. keeps_tac.
Qed.
End KeepsMore.

Ltac keeps_clauses :=
  repeat first [ apply List.Forall_nil | apply List.Forall_cons; [cbn [snd]|] ].

Ltac keeps_more :=
  lazymatch goal with
  | |- keeps _ (try_except_on _ _) => apply keeps_try_except_on; [|keeps_clauses]
  | |- keeps _ (set_found_tor _) => apply keeps_set_found_tor; intros ? ? ?; assumption
  | |- keeps _ (set_socket_file_path _) =>
      apply keeps_set_socket_file_path; intros ? ? ?; assumption
  | |- keeps _ (_get_available_port _ _) =>
      apply keeps_allocation; first [assumption | intros ? ? ?; assumption]
  | |- keeps _ (bootstrap_loop _ _ _ _) =>
      apply keeps_bootstrap; first [assumption | intros ? ? ?; assumption]
  | |- _ => keeps_step
  end.

Ltac keeps_init :=
  unfold init_bundled, bundled_transport, bundled_launch, init_automatic, init_manual,
    probe_stealth, local_socket_file_path;
  cbn [for_each]; unfold_calls;
  cbv zeta;
  repeat keeps_more.


Lemma the_controller_val st st' ctl :
  the_controller st = (st', Val ctl) → st' = st ∧ c (self st) = Some ctl.
Proof.
  unfold the_controller. unfold_m. simpl. destruct (c (self st)); simpl; [|done].
  by intros [= <- <-].
Qed.

Lemma keeps_connected_probe ctl eph : keeps (connected ctl eph) probe_stealth.
Proof.
  assert (Hlog : ∀ st e, connected ctl eph st →
                         connected ctl eph (mkSt (self st) (frame st) (trace st ++ [e])))
    by done.
  keeps_init.
Qed.

Lemma keeps_version_probe v :
  keeps (λ st, tor_version (self st) = v) probe_stealth.
Proof.
  assert (Hlog : ∀ st e, tor_version (self st) = v →
                         tor_version (self (mkSt (self st) (frame st) (trace st ++ [e]))) = v)
    by done.
  keeps_init.
Qed.

(** What the last lines of [__init__] establish. *)
Lemma construction_capabilities w fuel stealth_ settings_ f st st' :
  __init__ w fuel stealth_ settings_ f st = (st', Val tt) →
  ∃ ctl,
    c (self st') = Some ctl ∧
    supports_ephemeral (self st')
    = has_list_ephemeral_hidden_services ctl
      && String.leb "0.2.7.1" (tor_version (self st')).
Proof.
  unfold __init__. cbv zeta. intros H.
  apply bind_val in H as ([] & ? & _ & H).
  apply bind_val in H as ([] & ? & _ & H).
  apply bind_val in H as (s & ? & _ & H).
  do 4 apply bind_val in H as ([] & ? & _ & H).
  apply bind_val in H as ([] & s2 & _ & H).
  apply bind_val in H as (v & s3 & _ & H).
  apply bind_val in H as ([] & s4 & [= <-] & H).
  apply bind_val in H as (ctl & s5 & Hctl & H).
  apply the_controller_val in Hctl as [-> Hc].
  apply bind_val in H as ([] & s6 & [= <-] & H).
  exists ctl.
  match type of H with
  | probe_stealth ?X = _ =>
      assert (Hconn : connected ctl
                (has_list_ephemeral_hidden_services ctl && String.leb "0.2.7.1" v) X)
        by done;
      assert (Hv : tor_version (self X) = v) by done;
      apply keeps_connected_probe in Hconn;
      apply (keeps_version_probe v) in Hv
  end.
  rewrite H in Hconn, Hv. simpl in *. destruct Hconn as [Hc' He]. by rewrite Hv.
Qed.

Section Construction.
Context (w : World) (fuel : nat) (stealth_ : bool) (s : Settings) (f : option callback).

Lemma construction_built st st' :
  __init__ w fuel stealth_ (Some s) f st = (st', Val tt) →
  built stealth_ s st'.
Proof.
  intros H.
  revert H. unfold __init__. cbv zeta. rewrite !bind_modify, bind_ret, !bind_modify.
  cbn [self frame trace].
  set (st0 := mkSt _ (frame st) (trace st)).
  assert (H0 : built stealth_ s st0) by done.
  match goal with
  | |- ?m st0 = _ → _ => assert (Hk : keeps (built stealth_ s) m)
  end.
  { assert (Hlog : ∀ st e, built stealth_ s st →
                           built stealth_ s (mkSt (self st) (frame st) (trace st ++ [e])))
      by done.
    keeps_init. }
  intros H. apply Hk in H0. by rewrite H in H0.
Qed.

(** [__init__] never assigns [auth_string], however it ends. *)
Lemma construction_keeps_auth_string st :
  auth_string (self (__init__ w fuel stealth_ (Some s) f st).1) = auth_string (self st).
Proof.
  unfold __init__. cbv zeta. rewrite !bind_modify, bind_ret, !bind_modify.
  cbn [self frame trace].
  set (st0 := mkSt _ (frame st) (trace st)).
  set (untouched := λ st1 : St, auth_string (self st1) = auth_string (self st)).
  assert (H0 : untouched st0) by done.
  match goal with
  | |- auth_string (self (?m st0).1) = _ => assert (Hk : keeps untouched m)
  end.
  { assert (Hlog : ∀ st e, untouched st →
                           untouched (mkSt (self st) (frame st) (trace st ++ [e])))
      by done.
    keeps_init. }
  by apply Hk.
Qed.

(** X14. A successful construction leaves a connected controller and an
    object with the stealth flag and the settings it was given and with no
    service id, whichever connection strategy was used. It does not assign
    [auth_string]: that attribute is what it was before the call, and only
    [start] gives it a value. *)
Theorem construction_leaves_no_service st st' :
  __init__ w fuel stealth_ (Some s) f st = (st', Val tt) →
  is_Some (c (self st')) ∧
  built stealth_ s st' ∧
  auth_string (self st') = auth_string (self st).
Proof.
  intros H. split_and!.
  - apply construction_capabilities in H as (ctl & Hc & _). by rewrite Hc.
  - by apply (construction_built st).
  - pose proof (construction_keeps_auth_string st) as Hkeep. by rewrite H in Hkeep.
Qed.

(** X15. Unless the connection type is [bundled], [__init__] never starts
    a process: [tor_proc] is still [None] afterwards, whether the
    construction succeeds or raises. *)
Theorem no_process_unless_bundled st :
  connection_type s ≠ "bundled" →
  tor_proc (self (__init__ w fuel stealth_ (Some s) f st).1) = None.
Proof.
  intros Hs. unfold __init__. cbv zeta. rewrite !bind_modify, bind_ret, !bind_modify.
  cbn [self frame trace].
  destruct (String.eqb_spec (connection_type s) "bundled") as [|_]; [done|].
  set (st0 := mkSt _ (frame st) (trace st)).
  assert (H0 : no_process st0) by done.
  match goal with
  | |- tor_proc (self (?m st0).1) = None => assert (Hk : keeps no_process m)
  end.
  { assert (Hlog : ∀ st e, no_process st →
                           no_process (mkSt (self st) (frame st) (trace st ++ [e])))
      by done.
    keeps_init. }
  by apply Hk.
Qed.

(** X16. After a successful construction against a Tor without
    [list_ephemeral_hidden_services], or with a version below 0.2.7.1,
    [start] raises [TorTooOld] and sends nothing. *)
Theorem start_refused_on_old_tor st st' port :
  __init__ w fuel stealth_ (Some s) f st = (st', Val tt) →
  (∀ ctl, c (self st') = Some ctl → has_list_ephemeral_hidden_services ctl = false)
  ∨ String.leb "0.2.7.1" (tor_version (self st')) = false →
  (start port st').2 = Exc TorTooOld ∧ trace (start port st').1 = trace st'.
Proof.
  intros H Hold. apply construction_capabilities in H as (ctl & Hc & He).
  assert (Heph : supports_ephemeral (self st') = false).
  { rewrite He. destruct Hold as [Hl| ->]; [by rewrite (Hl ctl Hc)|].
    by rewrite andb_false_r. }
  unfold start. unfold_m. simpl. by rewrite Heph.
Qed.
(** X24. After a successful construction with a connection type other
    than [bundled], [get_tor_socks_port] answers from the settings alone:
    [127.0.0.1:9150] for [automatic], on whichever port the controller was
    found, and the configured SOCKS address and port otherwise. *)
Theorem socks_endpoint_without_bundle st st' :
  connection_type s ≠ "bundled" →
  __init__ w fuel stealth_ (Some s) f st = (st', Val tt) →
  get_tor_socks_port st'
  = (st', Val (if String.eqb (connection_type s) "automatic"
               then ("127.0.0.1", Some 9150)
               else (socks_address s, Some (socks_port s)))).
Proof.
  intros Hs H. apply (construction_built st) in H as (_ & Hset & _).
  unfold get_tor_socks_port. unfold_m. simpl. rewrite Hset.
  destruct (String.eqb_spec (connection_type s) "bundled") as [|_]; [done|].
  by destruct (String.eqb (connection_type s) "automatic").
Qed.
End Construction.

Section Socks.
Context (w : World) (s : Settings).
Hypothesis randint_in_range : ∀ h, 1000 ≤ randint w h 1000 65535 ≤ 65535.

Lemma call_state {A} ev (g : history → result A) st st' a :
  call ev g st = (st', Val a) → st' = mkSt (self st) (frame st) (trace st ++ [ev]).
Proof.
  unfold call. unfold_m. simpl. destruct (g (trace st)); simpl; by intros [= <- <-].
Qed.

Lemma bundled_transport_socks fuel dir st st' t :
  settings (self st) = s →
  bundled_transport w fuel dir st = (st', Val t) →
  ∃ socks, 1000 ≤ socks ≤ 65535 ∧ socks_allocated w s socks st'.
Proof.
  intros Hs. unfold bundled_transport.
  destruct (String.eqb (platform_system w) "Windows"); intros H.
  - apply bind_val in H as (t0 & sa & Hread & H). apply call_state in Hread as ->.
    apply bind_val in H as (control & sb & Hc & H).
    apply allocation_bound in Hc as (_ & Hcs & _ & _); [|done].
    apply bind_val in H as ([] & s1 & [= <-] & H).
    apply bind_val in H as ([] & s2 & [= <-] & H).
    apply bind_val in H as ([] & s3 & [= <-] & H).
    apply bind_val in H as (socks & sc & Hso & H).
    apply allocation_bound in Hso as (Hsr & Hss & Hsb & _); [|done].
    apply bind_val in H as ([] & s4 & [= <-] & H).
    apply bind_val in H as ([] & s5 & [= <-] & H).
    injection H as <- <-.
    exists socks. split; [done|]. unfold socks_allocated. simpl in *.
    rewrite Hss. simpl. by rewrite Hcs.
  - apply bind_val in H as (t0 & sa & Hread & H). apply call_state in Hread as ->.
    apply bind_val in H as ([] & s1 & [= <-] & H).
    apply bind_val in H as ([] & s2 & [= <-] & H).
    apply bind_val in H as ([] & s3 & [= <-] & H).
    apply bind_val in H as (socks & sc & Hso & H).
    apply allocation_bound in Hso as (Hsr & Hss & Hsb & _); [|done].
    apply bind_val in H as ([] & s4 & [= <-] & H).
    apply bind_val in H as ([] & s5 & [= <-] & H).
    injection H as <- <-.
    exists socks. split; [done|]. unfold socks_allocated. simpl in *.
    by rewrite Hss.
Qed.

Lemma socks_allocated_log socks st e :
  socks_allocated w s socks st →
  socks_allocated w s socks (mkSt (self st) (frame st) (trace st ++ [e])).
Proof. intros (? & ? & ?). split_and!; try done. by apply bound_in_app. Qed.

(** X17. After a successful bundled construction, with [random.randint]
    within its bounds, [get_tor_socks_port] returns [127.0.0.1] and the SOCKS
    port that was allocated: a port between 1000 and 65535 whose bind
    succeeded. *)
Theorem bundled_socks_endpoint fuel stealth_ f st st' :
  connection_type s = "bundled" →
  __init__ w fuel stealth_ (Some s) f st = (st', Val tt) →
  ∃ socks,
    get_tor_socks_port st' = (st', Val ("127.0.0.1", Some socks)) ∧
    1000 ≤ socks ≤ 65535 ∧
    bound_in w socks (trace st').
Proof.
  intros Hs. unfold __init__. cbv zeta. rewrite !bind_modify, bind_ret, !bind_modify.
  cbn [self frame trace].
  rewrite Hs. change (String.eqb "bundled" "bundled") with true. cbv iota.
  intros H.
  apply bind_val in H as ([] & s2 & Hb & H).
  unfold init_bundled in Hb.
  destruct (negb _); [done|].
  apply bind_val in Hb as (dir & s3 & Hdir & Hb). apply call_state in Hdir as ->.
  apply bind_val in Hb as ([] & s4 & [= <-] & Hb).
  apply bind_val in Hb as (t & s5 & Ht & Hb).
  apply bundled_transport_socks in Ht as (socks & Hrange & Hsocks); [|done].
  exists socks.
  pose proof (socks_allocated_log socks) as Hlog.
  assert (Hk1 : keeps (socks_allocated w s socks) (bundled_launch w fuel f dir t))
    by keeps_init.
  apply Hk1 in Hsocks. rewrite Hb in Hsocks. simpl in Hsocks.
  match type of H with
  | ?m s2 = _ => assert (Hk2 : keeps (socks_allocated w s socks) m) by keeps_init
  end.
  apply Hk2 in Hsocks. rewrite H in Hsocks. simpl in Hsocks.
  destruct Hsocks as (Hset & Hport & Hbound).
  split_and!; try lia; try done.
  unfold get_tor_socks_port. unfold_m. simpl. rewrite Hset, Hs. simpl. by rewrite Hport.
Qed.
End Socks.

Lemma construction_leaves_no_service_witness :
  is_Some (c (self (__init__ Cases.linux_with_tor_browser 1 true
                      (Some Doubles.automatic) None
                      (Cases.configured_with_auth_string "HidServAuth a.onion b")).1)) ∧
  built true Doubles.automatic
    (__init__ Cases.linux_with_tor_browser 1 true (Some Doubles.automatic) None
       (Cases.configured_with_auth_string "HidServAuth a.onion b")).1 ∧
  auth_string
    (self (__init__ Cases.linux_with_tor_browser 1 true (Some Doubles.automatic) None
             (Cases.configured_with_auth_string "HidServAuth a.onion b")).1)
  = auth_string (self (Cases.configured_with_auth_string "HidServAuth a.onion b")).
Proof.
  apply (construction_leaves_no_service Cases.linux_with_tor_browser 1 true
           Doubles.automatic None
           (Cases.configured_with_auth_string "HidServAuth a.onion b")).
  vm_compute. reflexivity.
Defined.

Lemma no_process_unless_bundled_witness :
  tor_proc (self (__init__ Cases.linux_with_tor_browser 1 false
                    (Some Doubles.automatic) None Doubles.fresh).1) = None.
Proof.
  apply (no_process_unless_bundled Cases.linux_with_tor_browser 1 false
           Doubles.automatic None Doubles.fresh).
  vm_compute. intros H. discriminate H.
Defined.

Lemma start_refused_on_old_tor_witness :
  (start 8080 (__init__ Cases.linux_with_old_tor 1 false (Some Doubles.automatic) None
                 Doubles.fresh).1).2 = Exc TorTooOld ∧
  trace (start 8080 (__init__ Cases.linux_with_old_tor 1 false (Some Doubles.automatic)
                       None Doubles.fresh).1).1
  = trace (__init__ Cases.linux_with_old_tor 1 false (Some Doubles.automatic) None
             Doubles.fresh).1.
Proof.
  apply (start_refused_on_old_tor Cases.linux_with_old_tor 1 false Doubles.automatic
           None Doubles.fresh).
  - vm_compute. reflexivity.
  - right. vm_compute. reflexivity.
Defined.

Lemma bundled_socks_endpoint_witness :
  ∃ socks,
    get_tor_socks_port
      (__init__ Doubles.windows_with_tor 1 false (Some Doubles.bundled) None
         Doubles.fresh).1
    = ((__init__ Doubles.windows_with_tor 1 false (Some Doubles.bundled) None
          Doubles.fresh).1, Val ("127.0.0.1", Some socks)) ∧
    1000 ≤ socks ≤ 65535 ∧
    bound_in Doubles.windows_with_tor socks
      (trace (__init__ Doubles.windows_with_tor 1 false (Some Doubles.bundled) None
                Doubles.fresh).1).
Proof.
  apply (bundled_socks_endpoint Doubles.windows_with_tor Doubles.bundled)
    with (fuel := 1%nat) (stealth_ := false) (f := None) (st := Doubles.fresh).
  - intros h. change (1000 ≤ 5000 ≤ 65535). lia.
  - reflexivity.
  - vm_compute. reflexivity.
Defined.

Lemma socks_endpoint_without_bundle_witness :
  get_tor_socks_port
    (__init__ Cases.linux_with_tor_everywhere 1 false (Some Doubles.automatic) None
       Doubles.fresh).1
  = ((__init__ Cases.linux_with_tor_everywhere 1 false (Some Doubles.automatic) None
        Doubles.fresh).1,
     Val (if String.eqb (connection_type Doubles.automatic) "automatic"
          then ("127.0.0.1", Some 9150)
          else (socks_address Doubles.automatic, Some (socks_port Doubles.automatic)))).
Proof.
  apply (socks_endpoint_without_bundle Cases.linux_with_tor_everywhere 1 false
           Doubles.automatic None Doubles.fresh).
  - vm_compute. intros H. discriminate H.
  - vm_compute. reflexivity.
Defined.

(** With a Tor on every port the controller kept is the one of port 9051;
    the SOCKS endpoint reported is still port 9150. *)
Example socks_endpoint_of_system_tor :
  from_ports (trace (__init__ Cases.linux_with_tor_everywhere 1 false
                       (Some Doubles.automatic) None Doubles.fresh).1)
  = [9151; 9153; 9051] ∧
  (get_tor_socks_port
     (__init__ Cases.linux_with_tor_everywhere 1 false (Some Doubles.automatic) None
        Doubles.fresh).1).2 = Val ("127.0.0.1", Some 9150).
Proof. split; reflexivity. Qed.
